(* ===== verification/_CoqProject ===== *)
-Q . S2P
Prelude.v
PyText.v
Ocpp.v
Bridge.v
Proxy.v
Registry.v
Keywords.v
Concurrent.v
Tests.v
Demo.v
Dispatch.v
