(* ===== verification/Prelude.v ===== *)
(** * A verification development for the ChargeAmps OCPP central-system harness

    The repository (src/) is a test-harness endpoint that plays the part of
    an OCPP 1.6 central system for charging stations.  Its parts are:

    - [src/chargeamps/CentralSystem.py], class [CentralSystem]: the
      connection registry.  [serve] starts a thread running an asyncio event
      loop with a websocket server; [__on_connect] turns each accepted
      connection into a [ChargePointProxy], appends it to the list
      [__connected_chargepoints], sets the [threading.Event]
      [__conn_event] and runs the proxy's dispatch loop; [has_connections],
      [find_chargepoint] and [wait_for_connection] are the queries of the
      caller threads.
    - [src/chargeamps/ChargePointProxy.py], class [ChargePointProxy]: one
      station session.  It keeps a [queue.Queue] [__msgq] and a set
      [__awaited_msgs] of trapped message names.  The three notification
      handlers ([on_boot_notification], [on_heartbeat],
      [on_status_notification]) push their payload on the queue when the
      name is trapped and return the acknowledgement; [add_msg_trap],
      [wait_msg] and [clear_msg_queue] are the caller side of the trap
      queue; [trigger_message] and the [light_intensity] property issue
      outbound requests through the communicator.
    - [src/chargeamps/AsyncCommunicator.py], class [AsyncCommunicator]: the
      call bridge.  [blocking_call] submits a coroutine to the event loop
      and polls [task.done()] every 0.1 s before returning
      [task.result()] (which re-raises the coroutine's exception).
    - [src/libs/centralsystem.py], class [centralsystem]: the Robot
      Framework keyword library, a thin layer that finds a proxy by id and
      delegates, plus two helpers that build nested message dictionaries.
    - [chargeamps/exceptions.py] is imported but not part of src/: its
      three exception classes are modelled from the spec.

    ** Files, in dependency order

    - [Prelude] (this file): the [outcome] type of a Python call (return,
      raise, or block forever), its monad instances and simplification
      lemmas, the hint database [ca] and the shared tactics.
    - [PyText]: the Python built-ins the code relies on for text:
      [str(int)] ([py_str]), [int(str)] ([py_int], CPython's base-10 grammar
      with whitespace, sign and single underscores), [str.strip(chars)]
      ([py_strip]) and [str.split]/[str.join] on one separator.  Theorems:
      the [int]/[str] round trip, the split/join round trip, and the strip
      laws used by the registry.
    - [Ocpp]: the data of the protocol as the code uses it: notification
      payloads, outbound requests and their results ([ocpp.v16.call] and
      [call_result]), the exceptions, and the two time formats the handlers
      produce ([datetime.isoformat()] and the heartbeat [strftime]), with
      a theorem on their shape and length (the boot time has no zone).
    - [Bridge]: the interface [Comm] a proxy expects from its communicator
      (one blocking call per request, response or exception), the free
      structure [prog] of a proxy operation that issues calls, its
      interpreter [run], and the [AsyncCommunicator] polling loop with its
      termination and refinement theorems.
    - [Proxy]: [ChargePointProxy]: the session record (id, queue, trap set),
      the handlers and their dispatch table, the trap operations, and the
      outbound operations as [prog]s.  Theorems: the behaviour of every
      operation on every branch (errors included), the trap-set and queue
      invariants, the shared-FIFO behaviour of [wait_msg], and the
      set-then-get round trip of the light intensity through a station
      that stores what it is sent.
    - [Registry]: [CentralSystem] over a list of sessions updated by index:
      [serve], [__on_connect], [has_connections], [find_chargepoint],
      [wait_for_connection], [is_active], and the delivery of a frame to
      the session of one connection.  Theorems: the registry invariant
      (event set implies a session exists), the newest-connection query,
      and the behaviours where the code departs from the spec (duplicate
      ids are accepted, the oldest duplicate is found, the connection
      query never blocks again, [is_active] always raises).

    - [Keywords]: [libs/centralsystem.py]: the library object holding at
      most one [CentralSystem], [start_CentralSystem] with its
      configuration check, the delegating keywords composed with
      [find_chargepoint] (outbound keywords run on the connection of the
      session they find, open or closed: [run_keyword]), and
      [create_message] / [set_message_field] over a nested-dictionary
      value.  Theorems: the store-then-read round trip of a dotted path,
      the paths on which the code never stores the value (one segment, a
      repeated last segment), that every dictionary of a message keeps
      distinct keys (the invariant of the association-list
      representation), and that after a reconnection the outbound
      keywords talk to the closed connection of the stale session.

    - [Concurrent]: the trap queue under interleaving.  The event loop
      (a handler's trap test, its evaluation of [self.__msgq], its [put])
      and any number of caller threads ([add_msg_trap], the steps of
      [wait_msg], [clear_msg_queue]) are an executable step function over
      a store of queue objects, so that [clear_msg_queue] replaces the
      object a waiter may still block on.  Theorems: well-formedness of
      the store is preserved; two waiters on one name reach a state where
      the second raises [KeyError] and a notification is lost; a waiter
      on a replaced queue stays blocked for ever, and with a single caller
      thread no interleaving reaches that [KeyError] (both by induction on
      the reflexive-transitive closure of the steps); and every operation of
      [Proxy] is a run of this model with no interleaving (a forward
      simulation of the atomic model).

    - [Tests]: the twelve tests of src/tests/test_chargepointproxy.py as
      boolean checks of their assertions on the model ([Mock] as
      [Bridge.mock_comm], [assert_called_with] on the last request sent);
      each evaluates to [true].

    - [Demo]: the demo [main] of the keyword library as an interaction
      tree (ITree) over its four keyword calls, ending in the
      [while True: pass] loop ([ITree.iter]); an exception of a keyword
      ends it, a call that never returns is [ITree.spin].  It is
      interpreted ([interp_state]) by any handler that answers the calls by
      state steps, in particular by the models of [Keywords] with a
      station environment.  Lemmas: when the keywords return, [main]
      diverges (equivalent to [ITree.spin], by coinduction with Paco), and
      the order of its calls loses the BootNotification of a station that
      answers the trigger at once, so that [main] raises
      [TimeoutException] (an evaluation against one scripted station).

    - [Dispatch]: the end of [__on_connect], [try: await cp.start()]
      [except ConnectionClosedOK], as an interaction tree over the
      websocket's [Recv] and [Send] ([ITree.iter] on the registry, one
      [Registry.deliver] per call frame), interpreted against a websocket
      that replays a script of frames and records the replies;
      [on_connect_handler] is the whole of [__on_connect].  Theorems: the
      loop hands every call, in arrival order, to the handlers of its own
      session and to no other, one reply per call, and the close ends it
      normally (clean close) or with the close's reason; and the session
      [__on_connect] registers stays in the registry after its connection
      has closed.

    ** Modelling choices

    - Python integers are unbounded: they are [Z].  The 4300-digit limit
      of [int]/[str] in CPython 3.11+ is not modelled (the code predates
      it); strings are Stdlib [string]s; the trap set is a [gset (option
      string)] because [wait_msg()] without a name traps [None].
    - A call that blocks forever with no other thread able to wake it is
      the [Hang] outcome; in the sequential models this is what
      [queue.get(timeout=None)] on an empty queue, [Event.wait()] with no
      connection, and a polling loop on a task that never completes do.
    - In [Demo] the station's behaviour is an environment of the handler
      (it connects while the caller waits, and sends its BootNotification
      after accepting the trigger, at once or during the wait); the
      interleavings it picks are among those [Concurrent] allows.
    - The polling loop of [blocking_call] is a [Fixpoint] on a fuel of
      polls; the termination theorem gives the exact fuel that suffices
      (one more than the poll at which the task is first done), and a
      separate theorem shows that no fuel suffices for a task that never
      completes.
    - Logging ([logger.console]) has no effect on state and is omitted;
      the wall clock is an input ([now]) of the handlers.
    - Not modelled: the websocket transport and the [ocpp] library's
      framing, JSON validation and routing (external libraries: the
      routing is modelled by the dispatch table the [@on] decorators
      build), and of the payload classes only the fields the code reads.
      The imports and module headers of src/ carry no behaviour.
    - Not modelled: the registry composed with [Concurrent] (several
      sessions each with caller threads).  [find_chargepoint] only reads
      the session list, which no operation shrinks or reorders
      ([Registry.reg_step_frame]), and each session's queue and
      trap set are touched only by its own handlers and callers, so the
      interleavings of different sessions commute and add nothing to what
      [Concurrent] shows for one session.
    - The loop of [cp.start()] belongs to the [ocpp] library: [Dispatch]
      models its observable behaviour (receive a frame, run the handler
      the [@on] table names, send its reply, stop when [recv] raises);
      the repository's own code there is the [except ConnectionClosedOK]
      and the registration before it.
    - Not modelled: [serve_]'s [websockets.serve] and
      [run_until_complete]/[run_forever] (the asyncio loop itself); the
      event loop is the scheduler of [Concurrent] and the environment of
      [Demo] and [Dispatch].
*)

From stdpp Require Export base list gmap sets strings.
From Stdlib Require Export ZArith String Ascii.

Declare Scope ca_scope.
Delimit Scope ca_scope with ca.
Open Scope ca_scope.

(** ** The outcome of a Python call *)

Inductive outcome (E A : Type) : Type :=
  | Ret (a : A)
  | Raise (e : E)
  | Hang.
Arguments Ret {E A} a.
Arguments Raise {E A} e.
Arguments Hang {E A}.

#[export] Instance outcome_ret E : MRet (outcome E) := λ A a, Ret a.
#[export] Instance outcome_bind E : MBind (outcome E) :=
  λ A B f m, match m with Ret a => f a | Raise e => Raise e | Hang => Hang end.
#[export] Instance outcome_fmap E : FMap (outcome E) :=
  λ A B f m, match m with Ret a => Ret (f a) | Raise e => Raise e | Hang => Hang end.

(** [raises m e]: the call [m] raises [e]. *)
Notation "m 'raises' e" := (m = Raise e) (at level 70) : ca_scope.
(** [returns m a]: the call [m] returns [a]. *)
Notation "m 'returns' a" := (m = Ret a) (at level 70) : ca_scope.

Section outcome_lemmas.
Context {E A B : Type}.

Lemma outcome_bind_ret (a : A) (f : A → outcome E B) : (Ret a ≫= f) = f a.
Proof. done. Qed.

Lemma outcome_bind_raise (e : E) (f : A → outcome E B) : (Raise e ≫= f) = Raise e.
Proof. done. Qed.

Lemma outcome_bind_hang (f : A → outcome E B) : (Hang ≫= f) = Hang.
Proof. done. Qed.

Lemma outcome_bind_Ret_inv (m : outcome E A) (f : A → outcome E B) (b : B) :
  (m ≫= f) = Ret b → ∃ a, m = Ret a ∧ f a = Ret b.
Proof. destruct m; simpl; [eauto|discriminate..]. Qed.
End outcome_lemmas.

Create HintDb ca discriminated.
Create Rewrite HintDb ca.
#[export] Hint Rewrite @outcome_bind_ret @outcome_bind_raise @outcome_bind_hang : ca.

(** [ca_simp] unfolds one layer of the models and simplifies outcomes;
    [ca_cases] splits every [decide] and boolean test of the goal. *)
Ltac ca_simp := repeat (progress (simpl in *; autorewrite with ca in *; simplify_eq)).
Ltac ca_cases :=
  repeat first [ case_decide | case_match ]; simplify_eq; try done.

(** ** Generic lemmas on lists used as Python lists *)

Section list_lemmas.
Context {A : Type}.

(** [l[-1]] after [l.append(x)] is [x]. *)
Lemma last_append (l : list A) (x : A) : last (l ++ [x]) = Some x.
Proof. apply last_snoc. Qed.

Lemma last_Some_elem (l : list A) (x : A) : last l = Some x → x ∈ l.
Proof.
  induction l as [|y l IH]; [done|].
  destruct l as [|z l]; simpl; intros H.
  - simplify_eq. set_solver.
  - apply IH in H. set_solver.
Qed.

Lemma last_None_nil (l : list A) : last l = None ↔ l = [].
Proof.
  split; [|intros ->; done].
  induction l as [|y l IH]; [done|]. destruct l as [|z l]; simpl; [done|].
  intros Hl. specialize (IH Hl). done.
Qed.
End list_lemmas.

#[export] Hint Resolve last_append : ca.
