(* ===== verification/PyText.v ===== *)
(** * Python text built-ins used by the harness

    The code converts between integers and text in three places: the
    light-intensity setter sends [str(val)] (ChargePointProxy.py:139), the
    getter returns [int(resp.configuration_key[0]["value"])] (line 122), and
    the keyword [set_light_intensity] converts its argument with [int(...)]
    (libs/centralsystem.py:62).  The registry derives a station id with
    [path.strip('/')] (CentralSystem.py:16).

    This file models those built-ins as CPython implements them for ASCII
    text: [py_int] follows [PyLong_FromString] in base 10 (leading and
    trailing whitespace, one optional sign, digits separated by single
    underscores, no leading or trailing underscore, at least one digit),
    [py_str] is the decimal printer of [int.__str__], and [py_strip] is
    [str.strip(chars)].  The main results are the round trip
    [py_int (py_str z) = Some z] and the laws of [py_strip]. *)

From S2P Require Import Prelude.

Local Open Scope Z_scope.

(** ** Characters *)

(** [Py_ISSPACE]: space, \t, \n, \v, \f, \r. *)
Definition is_py_space (c : ascii) : bool :=
  match nat_of_ascii c with
  | 32%nat | 9%nat | 10%nat | 11%nat | 12%nat | 13%nat => true
  | _ => false
  end.

(** The value of a decimal digit. *)
Definition digit_value (c : ascii) : option Z :=
  let n := nat_of_ascii c in
  if (48 <=? n)%nat && (n <=? 57)%nat then Some (Z.of_nat n - 48) else None.

Definition digit_char (d : Z) : ascii := ascii_of_nat (Z.to_nat (d + 48)).

Fixpoint lstrip_by (P : ascii → bool) (l : list ascii) : list ascii :=
  match l with
  | c :: r => if P c then lstrip_by P r else l
  | [] => []
  end.

(** ** [int(s)] in base 10 *)

(** The digit loop of [PyLong_FromString]: [after_us] records that the
    previous character was an underscore.  A non-digit that is not an
    underscore ends the number; what remains must be whitespace. *)
Fixpoint py_digits (acc : Z) (after_us : bool) (l : list ascii) : option Z :=
  match l with
  | [] => if after_us then None else Some acc
  | c :: r =>
      match digit_value c with
      | Some d => py_digits (10 * acc + d) false r
      | None =>
          if after_us then None
          else if decide (c = "_"%char) then py_digits acc true r
          else if forallb is_py_space l then Some acc else None
      end
  end.

(** The number must start with a digit (not an underscore, not the end). *)
Definition py_int_body (l : list ascii) : option Z :=
  match l with
  | c :: r => match digit_value c with Some d => py_digits d false r | None => None end
  | [] => None
  end.

(** [int(s)]: [None] is the [ValueError] of an invalid literal. *)
Definition py_int (s : string) : option Z :=
  let l := lstrip_by is_py_space (list_ascii_of_string s) in
  match l with
  | "+"%char :: r => py_int_body r
  | "-"%char :: r => Z.opp <$> py_int_body r
  | _ => py_int_body l
  end.

(** ** [str(z)] *)

(** Decimal digits of [n >= 0], most significant first, in front of [acc];
    [fuel] bounds the number of digits. *)
Fixpoint dec_digits (fuel : nat) (n : Z) (acc : list ascii) : list ascii :=
  match fuel with
  | O => acc
  | S f =>
      let acc' := digit_char (n mod 10) :: acc in
      if n <? 10 then acc' else dec_digits f (n / 10) acc'
  end.

(** A number below [2 ^ (log2 n + 1)] has at most [log2 n + 1] digits. *)
Definition digits_fuel (n : Z) : nat := S (Z.to_nat (Z.log2 n)).

Definition py_str (z : Z) : string :=
  if z <? 0 then String "-" (string_of_list_ascii (dec_digits (digits_fuel (- z)) (- z) []))
  else string_of_list_ascii (dec_digits (digits_fuel z) z []).

(** ** [s.strip(chars)] *)

Definition py_strip (chars : list ascii) (s : string) : string :=
  let P c := bool_decide (c ∈ chars) in
  string_of_list_ascii (rev (lstrip_by P (rev (lstrip_by P (list_ascii_of_string s))))).

(** ** Lemmas *)

(** The value of a digit string read from an accumulator. *)
Definition digits_val (acc : Z) (ds : list ascii) : Z :=
  foldl (λ a c, 10 * a + default 0 (digit_value c)) acc ds.

Definition is_digit (c : ascii) : Prop := is_Some (digit_value c).

Lemma digit_value_char d : 0 ≤ d < 10 → digit_value (digit_char d) = Some d.
Proof.
  intros Hd. unfold digit_value, digit_char.
  rewrite nat_ascii_embedding by lia.
  assert ((48 <=? Z.to_nat (d + 48))%nat = true) as -> by (apply Nat.leb_le; lia).
  assert ((Z.to_nat (d + 48) <=? 57)%nat = true) as -> by (apply Nat.leb_le; lia).
  simpl. f_equal. lia.
Qed.

Lemma py_digits_all_digits acc ds :
  Forall is_digit ds → py_digits acc false ds = Some (digits_val acc ds).
Proof.
  revert acc. induction ds as [|c ds IH]; intros acc Hds; [done|].
  inversion Hds as [|? ? [d Hd] Hrest]; subst.
  cbn [py_digits]. rewrite Hd, IH by done. unfold digits_val. cbn [foldl]. rewrite Hd. done.
Qed.

Lemma dec_digits_S f n acc :
  dec_digits (S f) n acc =
  if n <? 10 then [digit_char (n mod 10)] ++ acc
  else dec_digits f (n / 10) (digit_char (n mod 10) :: acc).
Proof. done. Qed.

Lemma dec_digits_spec fuel n acc :
  0 ≤ n < 10 ^ Z.of_nat (S fuel) →
  ∃ ds, dec_digits (S fuel) n acc = ds ++ acc ∧ ds ≠ [] ∧ Forall is_digit ds
        ∧ digits_val 0 ds = n.
Proof.
  revert n acc. induction fuel as [|f IH]; intros n acc Hn;
  (assert (0 ≤ n mod 10 < 10) as Hm by (apply Z.mod_pos_bound; lia));
  (assert (is_digit (digit_char (n mod 10))) as Hdig
     by (unfold is_digit; rewrite digit_value_char; eauto));
  rewrite dec_digits_S; destruct (Z.ltb_spec n 10) as [Hlt|Hge].
  1,3: exists [digit_char (n mod 10)]; split; [done|]; split; [done|];
       split; [by constructor|];
       unfold digits_val; simpl; rewrite digit_value_char by done; simpl;
       rewrite Z.mod_small; lia.
  - simpl in Hn. lia.
  - rewrite Nat2Z.inj_succ, Z.pow_succ_r in Hn by lia.
    destruct (IH (n / 10) (digit_char (n mod 10) :: acc)) as (ds & Heq & Hne & Hall & Hval).
    { split; [apply Z.div_pos; lia|]. apply Z.div_lt_upper_bound; lia. }
    exists (ds ++ [digit_char (n mod 10)]). rewrite Heq, <- app_assoc. split; [done|].
    split; [destruct ds; simpl; congruence|]. split; [apply Forall_app; split; [done|by constructor]|].
    unfold digits_val in *. rewrite foldl_app, Hval. simpl.
    rewrite digit_value_char by done. simpl.
    pose proof (Z.div_mod n 10). lia.
Qed.

Lemma digits_fuel_enough n : 0 ≤ n → n < 10 ^ Z.of_nat (digits_fuel n).
Proof.
  intros Hn. unfold digits_fuel.
  rewrite Nat2Z.inj_succ, Z2Nat.id by (apply Z.log2_nonneg).
  destruct (Z.eq_dec n 0) as [->|Hne]; [simpl; lia|].
  assert (n < 2 ^ Z.succ (Z.log2 n)) by (apply Z.log2_spec; lia).
  assert (2 ^ Z.succ (Z.log2 n) ≤ 10 ^ Z.succ (Z.log2 n)).
  { apply Z.pow_le_mono_l. lia. }
  lia.
Qed.

Lemma py_int_body_digits n :
  0 ≤ n →
  ∃ ds, dec_digits (digits_fuel n) n [] = ds ∧ py_int_body ds = Some n
        ∧ ∃ c r, ds = c :: r ∧ is_digit c.
Proof.
  intros Hn.
  destruct (dec_digits_spec (Z.to_nat (Z.log2 n)) n [] (conj Hn (digits_fuel_enough n Hn)))
    as (ds & Heq & Hne & Hall & Hval).
  rewrite app_nil_r in Heq. exists ds. split; [done|].
  destruct ds as [|c r]; [done|]. apply Forall_cons in Hall as [[d Hd] Hr].
  split; [|exists c, r; split; [done|by exists d]].
  simpl. rewrite Hd, py_digits_all_digits by done. f_equal.
  unfold digits_val in Hval. simpl in Hval. rewrite Hd in Hval. done.
Qed.

Lemma digit_not_space c : is_digit c → is_py_space c = false.
Proof.
  intros [d Hd]. unfold digit_value in Hd. unfold is_py_space.
  destruct ((48 <=? nat_of_ascii c)%nat) eqn:E1, ((nat_of_ascii c <=? 57)%nat) eqn:E2;
    simpl in Hd; try discriminate.
  apply Nat.leb_le in E1, E2.
  destruct (nat_of_ascii c) as [|[|[|[|[|[|[|[|[|[|[|[|[|[|k]]]]]]]]]]]]]]; try lia.
  repeat (destruct k as [|k]; try lia; try done).
Qed.

Lemma digit_not_sign c : is_digit c → c ≠ "+"%char ∧ c ≠ "-"%char.
Proof. intros [d Hd]. split; intros ->; discriminate. Qed.

(** *** The [int]/[str] round trip *)

Lemma py_int_of_py_str (z : Z) : py_int (py_str z) = Some z.
Proof.
  unfold py_str, py_int. destruct (Z.ltb_spec z 0) as [Hneg|Hpos].
  - destruct (py_int_body_digits (- z)) as (ds & -> & Hb & c & r & -> & Hc); [lia|].
    cbn [list_ascii_of_string]. rewrite list_ascii_of_string_of_list_ascii.
    cbn [lstrip_by]. assert (is_py_space "-" = false) as -> by done.
    cbn -[py_int_body]. rewrite Hb. simpl. f_equal. lia.
  - destruct (py_int_body_digits z) as (ds & -> & Hb & c & r & -> & Hc); [lia|].
    rewrite list_ascii_of_string_of_list_ascii. cbn [lstrip_by].
    rewrite digit_not_space by done.
    destruct (digit_not_sign c Hc) as [Hp Hm].
    destruct c as [[] [] [] [] [] [] [] []]; done.
Qed.

(** [int] inverts [str] on every Python integer, so [str] is
    injective: the text the light-intensity setter sends is read back by
    the getter as the same number, and two different values are never sent
    as the same text. *)
Theorem py_str_int_roundtrip (z : Z) :
  py_int (py_str z) = Some z ∧ ∀ z', py_str z' = py_str z → z' = z.
Proof.
  split; [apply py_int_of_py_str|]. intros z' Heq.
  pose proof (py_int_of_py_str z') as H'. rewrite Heq, py_int_of_py_str in H'. congruence.
Qed.

(** *** [str.strip] *)

Section strip.
Context (P : ascii → bool).

Lemma lstrip_by_skip pre r : Forall (λ c, P c = true) pre → lstrip_by P (pre ++ r) = lstrip_by P r.
Proof. induction 1 as [|c pre Hc _ IH]; [done|]. simpl. by rewrite Hc. Qed.

Lemma lstrip_by_stop c r : P c = false → lstrip_by P (c :: r) = c :: r.
Proof. intros Hc. simpl. by rewrite Hc. Qed.
End strip.

(** [s.strip(chars)] removes exactly the surrounding run of [chars]: for a
    non-empty text [l] whose first and last characters are not in [chars],
    stripping [pre ++ l ++ suf] with [pre] and [suf] made of [chars] gives
    [l]. *)
Lemma py_strip_surrounded (chars pre l suf : list ascii) (c1 c2 : ascii) :
  Forall (λ c, c ∈ chars) pre → Forall (λ c, c ∈ chars) suf →
  head l = Some c1 → last l = Some c2 → c1 ∉ chars → c2 ∉ chars →
  py_strip chars (string_of_list_ascii (pre ++ l ++ suf)) = string_of_list_ascii l.
Proof.
  intros Hpre Hsuf Hh Hl Hc1 Hc2. unfold py_strip.
  set (P := λ c, bool_decide (c ∈ chars)).
  assert (∀ k, Forall (λ c, c ∈ chars) k → Forall (λ c, P c = true) k) as Hall.
  { intros k Hk. eapply Forall_impl; [exact Hk|]. intros c Hc. by apply bool_decide_eq_true. }
  rewrite list_ascii_of_string_of_list_ascii, lstrip_by_skip by auto.
  destruct l as [|c l]; [done|]. simpl in Hh. simplify_eq.
  rewrite <- app_comm_cons, lstrip_by_stop by (unfold P; by apply bool_decide_eq_false_2).
  apply last_Some in Hl as [l' Hl']. rewrite app_comm_cons, Hl', <- app_assoc.
  replace (rev (l' ++ [c2] ++ suf)) with (rev suf ++ c2 :: rev l')
    by (rewrite !rev_app_distr; simpl; by rewrite <- app_assoc).
  rewrite lstrip_by_skip by (apply Hall, Forall_rev; done).
  rewrite lstrip_by_stop by (unfold P; by apply bool_decide_eq_false_2).
  simpl. by rewrite rev_involutive.
Qed.

(** ** [s.split(sep)] *)

(** [cur] holds the current piece, reversed. *)
Fixpoint py_split_aux (sep : ascii) (l : list ascii) (cur : list ascii) : list string :=
  match l with
  | [] => [string_of_list_ascii (rev cur)]
  | c :: r =>
      if decide (c = sep) then string_of_list_ascii (rev cur) :: py_split_aux sep r []
      else py_split_aux sep r (c :: cur)
  end.

(** [s.split(sep)] for a one-character separator: never empty. *)
Definition py_split (sep : ascii) (s : string) : list string :=
  py_split_aux sep (list_ascii_of_string s) [].

(** [sep.join(pieces)] *)
Definition py_join (sep : ascii) (pieces : list string) : string :=
  String.concat (String sep EmptyString) pieces.

Lemma py_split_aux_piece sep piece r cur :
  sep ∉ list_ascii_of_string piece →
  py_split_aux sep (list_ascii_of_string piece ++ r) cur =
  py_split_aux sep r (rev (list_ascii_of_string piece) ++ cur).
Proof.
  revert cur. induction piece as [|c piece IH]; intros cur Hn; [done|].
  simpl in *. rewrite decide_False by set_solver. rewrite IH by set_solver.
  by rewrite <- app_assoc.
Qed.

Lemma list_ascii_of_string_append s1 s2 :
  list_ascii_of_string (s1 +:+ s2) = list_ascii_of_string s1 ++ list_ascii_of_string s2.
Proof. induction s1 as [|c s1 IH]; [done|]. simpl. by rewrite IH. Qed.

Lemma py_split_join_aux sep pieces :
  pieces ≠ [] → Forall (λ s, sep ∉ list_ascii_of_string s) pieces →
  py_split_aux sep (list_ascii_of_string (py_join sep pieces)) [] = pieces.
Proof.
  unfold py_join. induction pieces as [|p ps IH]; intros Hne Hall; [done|].
  apply Forall_cons in Hall as [Hp Hps]. destruct ps as [|p' ps].
  - simpl. pose proof (py_split_aux_piece sep p [] [] Hp) as Hs. rewrite app_nil_r in Hs.
    rewrite Hs. simpl. by rewrite app_nil_r, rev_involutive, string_of_list_ascii_of_string.
  - change (String.concat (String sep EmptyString) (p :: p' :: ps))
      with (p +:+ String sep EmptyString +:+ String.concat (String sep EmptyString) (p' :: ps)).
    rewrite !list_ascii_of_string_append, py_split_aux_piece by done.
    simpl. rewrite decide_True by done. rewrite app_nil_r, rev_involutive.
    rewrite string_of_list_ascii_of_string. f_equal. by apply IH.
Qed.

Lemma string_of_list_ascii_app l1 l2 :
  string_of_list_ascii (l1 ++ l2) = string_of_list_ascii l1 +:+ string_of_list_ascii l2.
Proof. induction l1 as [|c l1 IH]; [done|]. simpl. by rewrite IH. Qed.

Lemma py_split_aux_cons sep l cur : ∃ x xs, py_split_aux sep l cur = x :: xs.
Proof.
  revert cur. induction l as [|c l IH]; intros cur; simpl; [eauto|].
  case_decide; eauto.
Qed.

Lemma concat_cons_cons (sep x : string) xs :
  xs ≠ [] → String.concat sep (x :: xs) = x +:+ sep +:+ String.concat sep xs.
Proof. by destruct xs. Qed.

Lemma py_join_split_aux sep l cur :
  py_join sep (py_split_aux sep l cur) = string_of_list_ascii (rev cur ++ l).
Proof.
  unfold py_join. revert cur. induction l as [|c l IH]; intros cur.
  - simpl. by rewrite app_nil_r.
  - simpl. case_decide as Hc.
    + destruct (py_split_aux_cons sep l []) as (x & xs & Hxs).
      rewrite concat_cons_cons by (rewrite Hxs; done). rewrite IH. subst c.
      rewrite !string_of_list_ascii_app. simpl. done.
    + rewrite IH. simpl. by rewrite <- app_assoc.
Qed.

(** [str.split] and [str.join] on a one-character separator are
    inverse: joining the pieces of any text gives the text back, and
    splitting a join of pieces that do not contain the separator gives the
    pieces back (the dotted field paths of the keyword library). *)
Theorem py_split_join_roundtrip (sep : ascii) :
  (∀ s, py_join sep (py_split sep s) = s) ∧
  (∀ pieces, pieces ≠ [] → Forall (λ s, sep ∉ list_ascii_of_string s) pieces →
             py_split sep (py_join sep pieces) = pieces).
Proof.
  split.
  - intros s. unfold py_split. rewrite py_join_split_aux. simpl. by rewrite string_of_list_ascii_of_string.
  - intros pieces Hne Hall. by apply py_split_join_aux.
Qed.

(** *** Number of digits of [str(n)] *)

Lemma string_length_of_list l : String.length (string_of_list_ascii l) = List.length l.
Proof. induction l as [|c l IH]; [done|]. simpl. by rewrite IH. Qed.

Lemma string_length_append s1 s2 :
  String.length (s1 +:+ s2) = (String.length s1 + String.length s2)%nat.
Proof. induction s1 as [|c s1 IH]; [done|]. simpl. by rewrite IH. Qed.

Lemma dec_digits_length k f n acc :
  (k ≤ f)%nat → 0 ≤ n < 10 ^ Z.of_nat (S k) → (k = 0%nat ∨ 10 ^ Z.of_nat k ≤ n) →
  List.length (dec_digits (S f) n acc) = (S k + List.length acc)%nat.
Proof.
  revert f n acc. induction k as [|k IH]; intros f n acc Hf Hn Hk; rewrite dec_digits_S.
  - destruct (Z.ltb_spec n 10); [done|]. simpl in Hn. lia.
  - destruct Hk as [|Hk]; [lia|].
    assert (0 < 10 ^ Z.of_nat k) by (apply Z.pow_pos_nonneg; lia).
    rewrite Nat2Z.inj_succ, Z.pow_succ_r in Hk by lia.
    rewrite !Nat2Z.inj_succ, !Z.pow_succ_r in Hn by lia.
    destruct (Z.ltb_spec n 10); [lia|].
    destruct f as [|f]; [lia|].
    rewrite (IH f); [simpl; lia|lia| |].
    + split; [apply Z.div_pos; lia|]. apply Z.div_lt_upper_bound; [lia|].
      rewrite Nat2Z.inj_succ, Z.pow_succ_r by lia. lia.
    + right. apply Z.div_le_lower_bound; lia.
Qed.

Lemma py_str_length k n :
  0 ≤ n < 10 ^ Z.of_nat (S k) → (k = 0%nat ∨ 10 ^ Z.of_nat k ≤ n) →
  String.length (py_str n) = S k.
Proof.
  intros Hn Hk. unfold py_str. destruct (Z.ltb_spec n 0); [lia|].
  rewrite string_length_of_list. unfold digits_fuel.
  rewrite (dec_digits_length k); [simpl; lia| |done|done].
  destruct Hk as [->|Hk]; [lia|].
  assert (Z.of_nat k ≤ Z.log2 n); [|lia].
  apply Z.log2_le_pow2; [|transitivity (10 ^ Z.of_nat k); [apply Z.pow_le_mono_l|]]; lia.
Qed.

Lemma py_str_length_le w n : (1 ≤ w)%nat → 0 ≤ n < 10 ^ Z.of_nat w → (String.length (py_str n) ≤ w)%nat.
Proof.
  revert n. induction w as [|w IH]; intros n Hw Hn; [lia|].
  destruct (decide (w = 0%nat)) as [->|Hw0].
  - rewrite (py_str_length 0); [lia|done|by left].
  - destruct (Z.lt_ge_cases n (10 ^ Z.of_nat w)).
    + specialize (IH n ltac:(lia) ltac:(lia)). lia.
    + rewrite (py_str_length w); [lia|done|by right].
Qed.

(** ** Witnesses *)

Lemma py_split_join_roundtrip_witness :
  py_split "."%char (py_join "."%char ["a"; "b"; "c"]) = ["a"; "b"; "c"].
Proof. apply py_split_join_roundtrip; [discriminate|repeat constructor; set_solver]. Defined.
