(* ===== verification/Ocpp.v ===== *)
(** * Protocol data as the harness uses it

    The payload classes of [ocpp.v16.call] and [ocpp.v16.call_result] that
    ChargePointProxy.py builds or reads, the exceptions the code raises
    ([chargeamps/exceptions.py], not under src/, is modelled from the spec:
    it declares [TriggerMessageException], [ChangeConfigurationException]
    and [TimeoutException]), and the two renderings of the current time the
    notification handlers put in their acknowledgements:
    [datetime.utcnow().isoformat()] (BootNotification, line 45) and
    [datetime.utcnow().strftime('%Y-%m-%dT%H:%M:%S') + "Z"] (Heartbeat,
    line 59).  Theorems: the two renderings have fixed lengths and agree
    on their first 19 characters for years from 1000 on. *)

From S2P Require Import Prelude PyText.

Local Open Scope Z_scope.

(** ** Payloads *)

(** The keyword arguments a handler receives, in order. *)
Definition Fields := list (string * string).

(** Notifications a station sends: [call.BootNotificationPayload],
    [call.HeartbeatPayload] and [call.StatusNotificationPayload], the first
    and the last built from the handler's keyword arguments. *)
Inductive Notification :=
  | BootNotificationPayload (fields : Fields)
  | HeartbeatPayload
  | StatusNotificationPayload (fields : Fields).

(** The action name under which the [@on] decorator registers the handler. *)
Definition notification_name (n : Notification) : string :=
  match n with
  | BootNotificationPayload _ => "BootNotification"
  | HeartbeatPayload => "Heartbeat"
  | StatusNotificationPayload _ => "StatusNotification"
  end.

(** Requests the proxy sends. *)
Inductive Request :=
  | TriggerMessagePayload (requested_message : string)
  | GetConfigurationPayload (key : list string)
  | ChangeConfigurationPayload (key : string) (value : string).

(** One entry of [configuration_key]: a dictionary with keys ["key"],
    ["readonly"] and, optionally, ["value"]. *)
Record ConfigurationKey := {
  ck_key : string;
  ck_readonly : bool;
  ck_value : option string
}.

(** Results of the requests ([call_result.*Payload]). *)
Inductive Response :=
  | TriggerMessageResult (status : string)
  | GetConfigurationResult (configuration_key : option (list ConfigurationKey))
      (unknown_key : option (list string))
  | ChangeConfigurationResult (status : string).

(** Acknowledgements the notification handlers return. *)
Inductive Ack :=
  | BootNotificationAck (current_time : string) (interval : Z) (status : string)
  | HeartbeatAck (current_time : string)
  | StatusNotificationAck.

(** ** Exceptions *)

Inductive exn :=
  | TriggerMessageException (msg : string)
  | ChangeConfigurationException (msg : string)
  | TimeoutException (msg : string)
  | PyException (msg : string)
  | ValueError
  | KeyError
  | IndexError
  | TypeError
  | AttributeError
  (** [queue.Empty], raised by [Queue.get] when the timeout expires *)
  | QueueEmpty
  (** what [task.result()] re-raises when the OCPP call itself failed:
      the library's response timeout, a CallError, a closed connection *)
  | CallFailed (reason : string).

#[export] Instance exn_eq_dec : EqDecision exn.
Proof. solve_decision. Qed.

(** [resp.status]: only the results that have a [status] attribute. *)
Definition status_of (r : Response) : outcome exn string :=
  match r with
  | TriggerMessageResult s | ChangeConfigurationResult s => Ret s
  | GetConfigurationResult _ _ => Raise AttributeError
  end.

(** ** Time stamps *)

Record datetime := {
  dt_year : Z; dt_month : Z; dt_day : Z;
  dt_hour : Z; dt_minute : Z; dt_second : Z; dt_microsecond : Z
}.

(** The ranges [datetime] enforces on construction. *)
Definition datetime_valid (d : datetime) : Prop :=
  1 ≤ dt_year d ≤ 9999 ∧ 1 ≤ dt_month d ≤ 12 ∧ 1 ≤ dt_day d ≤ 31 ∧
  0 ≤ dt_hour d ≤ 23 ∧ 0 ≤ dt_minute d ≤ 59 ∧ 0 ≤ dt_second d ≤ 59 ∧
  0 ≤ dt_microsecond d ≤ 999999.

(** ["%0wd"]: left-pad with zeros to width [w]. *)
Definition zpad (w : nat) (n : Z) : string :=
  let s := py_str n in String.append (String.concat "" (repeat "0" (w - String.length s))) s.

(** [d.isoformat()]: ["YYYY-MM-DDTHH:MM:SS"] and [".ffffff"] when the
    microseconds are not zero. *)
Definition isoformat (d : datetime) : string :=
  zpad 4 (dt_year d) +:+ "-" +:+ zpad 2 (dt_month d) +:+ "-" +:+ zpad 2 (dt_day d) +:+ "T" +:+
  zpad 2 (dt_hour d) +:+ ":" +:+ zpad 2 (dt_minute d) +:+ ":" +:+ zpad 2 (dt_second d) +:+
  (if decide (dt_microsecond d = 0) then "" else "." +:+ zpad 6 (dt_microsecond d)).

(** [d.strftime('%Y-%m-%dT%H:%M:%S') + "Z"].  CPython hands the format to
    the C library; glibc prints [%Y] without padding. *)
Definition heartbeat_time (d : datetime) : string :=
  py_str (dt_year d) +:+ "-" +:+ zpad 2 (dt_month d) +:+ "-" +:+ zpad 2 (dt_day d) +:+ "T" +:+
  zpad 2 (dt_hour d) +:+ ":" +:+ zpad 2 (dt_minute d) +:+ ":" +:+ zpad 2 (dt_second d) +:+ "Z".

(** ** Theorems: the two time formats *)

Lemma concat_zeros_length m : String.length (String.concat "" (repeat "0" m)) = m.
Proof.
  induction m as [|m IH]; [done|]. destruct m as [|m]; [done|].
  change (String.concat "" (repeat "0" (S (S m))))
    with ("0" +:+ "" +:+ String.concat "" (repeat "0" (S m))).
  rewrite !string_length_append, IH. done.
Qed.

Lemma zpad_length w n : (1 ≤ w)%nat → 0 ≤ n < 10 ^ Z.of_nat w → String.length (zpad w n) = w.
Proof.
  intros Hw Hn. unfold zpad. rewrite string_length_append, concat_zeros_length.
  pose proof (py_str_length_le w n Hw Hn). lia.
Qed.

Lemma zpad_exact w n : String.length (py_str n) = w → zpad w n = py_str n.
Proof. intros Hl. unfold zpad. by rewrite Hl, Nat.sub_diag. Qed.

(** The date and time fields both renderings share. *)
Definition time_prefix (d : datetime) : string :=
  zpad 4 (dt_year d) +:+ "-" +:+ zpad 2 (dt_month d) +:+ "-" +:+ zpad 2 (dt_day d) +:+ "T" +:+
  zpad 2 (dt_hour d) +:+ ":" +:+ zpad 2 (dt_minute d) +:+ ":" +:+ zpad 2 (dt_second d).

Lemma string_append_assoc s1 s2 s3 : (s1 +:+ s2) +:+ s3 = s1 +:+ (s2 +:+ s3).
Proof.
  induction s1 as [|c s1 IH]; [done|].
  change (String c ((s1 +:+ s2) +:+ s3) = String c (s1 +:+ (s2 +:+ s3))). by rewrite IH.
Qed.

Lemma time_prefix_length d : datetime_valid d → String.length (time_prefix d) = 19%nat.
Proof.
  intros (Hy & Hmo & Hd & Hh & Hmi & Hs & Hus). unfold time_prefix.
  rewrite !string_length_append, !zpad_length; simpl; lia.
Qed.

(** C31: For a valid time from year 1000 on, the heartbeat acknowledgement's
    [currentTime] and the boot acknowledgement's are the same 19-character
    date and time; the heartbeat's ends in "Z", the boot one has no time
    zone designator and carries six digits of microseconds when they are
    not zero. *)
Theorem ack_time_formats d :
  datetime_valid d → 1000 ≤ dt_year d →
  heartbeat_time d = time_prefix d +:+ "Z" ∧
  isoformat d = time_prefix d +:+
                (if decide (dt_microsecond d = 0) then "" else "." +:+ zpad 6 (dt_microsecond d)) ∧
  String.length (heartbeat_time d) = 20%nat ∧
  String.length (isoformat d) = if decide (dt_microsecond d = 0) then 19%nat else 26%nat.
Proof.
  intros Hv Hy. pose proof (time_prefix_length d Hv) as Hp.
  destruct Hv as (Hy' & Hmo & Hd & Hh & Hmi & Hs & Hus).
  assert (zpad 4 (dt_year d) = py_str (dt_year d)) as Hz.
  { apply zpad_exact, (py_str_length 3); [simpl; lia|right; simpl; lia]. }
  assert (heartbeat_time d = time_prefix d +:+ "Z") as Hhb.
  { unfold heartbeat_time, time_prefix. rewrite Hz. by rewrite ?string_append_assoc. }
  assert (isoformat d = time_prefix d +:+
            (if decide (dt_microsecond d = 0) then "" else "." +:+ zpad 6 (dt_microsecond d))) as Hiso.
  { unfold isoformat, time_prefix. by rewrite ?string_append_assoc. }
  split_and!; [done|done| |].
  - rewrite Hhb, string_length_append, Hp. done.
  - rewrite Hiso, string_length_append, Hp. case_decide; [done|].
    rewrite string_length_append, zpad_length; simpl; lia.
Qed.

Lemma ack_time_formats_witness :
  heartbeat_time {| dt_year := 2020; dt_month := 5; dt_day := 17; dt_hour := 9; dt_minute := 3;
                    dt_second := 7; dt_microsecond := 120 |} = "2020-05-17T09:03:07Z".
Proof.
  destruct (ack_time_formats {| dt_year := 2020; dt_month := 5; dt_day := 17; dt_hour := 9;
                                 dt_minute := 3; dt_second := 7; dt_microsecond := 120 |})
    as [-> _]; [unfold datetime_valid; simpl; lia|simpl; lia|reflexivity].
Defined.
