(* ===== verification/Bridge.v ===== *)
(** * The call bridge: [AsyncCommunicator.blocking_call]

    A proxy's outbound operations issue requests through a communicator
    object [comm] and block until it answers (ChargePointProxy.py lines 92,
    118, 141).  This file states what a proxy expects of that object, the
    class [Comm]: one call per request, answered by a response or an
    exception, possibly changing the state of whatever answers.  Proxy
    operations are written against it as [prog]s: trees whose nodes are the
    blocking calls and whose continuations receive the call's outcome (so
    that the getter's [try]/[except] is expressible).  [run] executes a
    [prog] against any [Comm] and records the requests in order, as the
    unit tests' [Mock] does.

    Implementations of [Comm]: [mock_comm] (a [Mock] with a fixed
    [return_value], the communicator of src/tests) and [async_comm], the
    model of [AsyncCommunicator.blocking_call] (AsyncCommunicator.py lines
    9-13): the request is submitted to the event loop as a task, the task
    completes at some poll, and the caller polls [task.done()] with a sleep
    of 0.1 s between polls before returning [task.result()].  The loop is a
    [Fixpoint] on a number of polls ([poll_loop]); [None] means the polls
    ran out.  Theorems: the loop returns the task's result after exactly
    the first poll at which the task is done, it never returns for a task
    that never completes, and [async_comm] refines the station it talks to
    (same requests, same outcome) whenever every call completes within the
    polls allowed. *)

From S2P Require Import Prelude PyText Ocpp.

(** ** The interface a proxy expects *)

Class Comm (St : Type) := comm_call : St → Request → St * outcome exn Response.

(** A proxy operation that issues blocking calls. *)
Inductive prog (A : Type) : Type :=
  | Done (o : outcome exn A)
  | Call (req : Request) (k : outcome exn Response → prog A).
Arguments Done {A} o.
Arguments Call {A} req k.

Fixpoint pbind {A B} (p : prog A) (f : A → prog B) : prog B :=
  match p with
  | Done (Ret a) => f a
  | Done (Raise e) => Done (Raise e)
  | Done Hang => Done Hang
  | Call req k => Call req (λ o, pbind (k o) f)
  end.

Section run.
Context `{Comm St} {A : Type}.

(** Execute [p]; the requests sent, in order, the final state of the
    answering side, and the outcome.  A call that never returns stops
    the operation there. *)
Fixpoint run (p : prog A) (s : St) : list Request * St * outcome exn A :=
  match p with
  | Done o => ([], s, o)
  | Call req k =>
      let '(s', o) := comm_call s req in
      match o with
      | Hang => ([req], s', Hang)
      | _ => let '(log, s'', r) := run (k o) s' in (req :: log, s'', r)
      end
  end.
End run.

(** ** [unittest.mock.Mock] with a fixed [return_value] *)

(** The state is the configured answer; [Raise] plays [side_effect]. *)
#[export] Instance mock_comm : Comm (outcome exn Response) := λ r _, (r, r).

(** ** [AsyncCommunicator.blocking_call] *)

(** The task [run_coroutine_threadsafe] returns: [task_done i] is what
    [task.done()] answers at the [i]-th poll, [task_result] what
    [task.result()] returns or raises once it is done. *)
Record Task := {
  task_done : nat → bool;
  task_result : outcome exn Response
}.

(** [while not task.done(): time.sleep(0.1)]; [return task.result()],
    starting at poll [i], with at most [fuel] polls. *)
Fixpoint poll_loop (fuel i : nat) (t : Task) : option (outcome exn Response) :=
  match fuel with
  | O => None
  | S f => if task_done t i then Some (task_result t) else poll_loop f (S i) t
  end.

Section async.
(** The station side: the coroutine [self.call(req)] computes the answer
    [station_call] gives, and its task is done from poll [latency s req]
    on. *)
Context `{Comm St} (latency : St → Request → nat) (fuel : nat).

Definition submit (s : St) (req : Request) : St * Task :=
  let '(s', o) := comm_call s req in
  (s', {| task_done := λ i, (latency s req <=? i)%nat; task_result := o |}).

(** A loop that runs out of polls is a caller that is still blocked. *)
Definition blocking_call (s : St) (req : Request) : St * outcome exn Response :=
  let '(s', t) := submit s req in
  (s', default Hang (poll_loop fuel 0 t)).

Definition async_comm : Comm St := blocking_call.
End async.

(** ** Theorems *)

Lemma poll_loop_S f i t :
  poll_loop (S f) i t = if task_done t i then Some (task_result t) else poll_loop f (S i) t.
Proof. done. Qed.

(** Polling from [i] for [k] polls when the task is not done in that
    window finds nothing. *)
Lemma poll_loop_not_done k i t :
  (∀ j, i ≤ j < i + k → task_done t j = false) → poll_loop k i t = None.
Proof.
  revert i. induction k as [|k IH]; intros i Hnd; [done|].
  rewrite poll_loop_S, Hnd by lia. apply IH. intros j Hj. apply Hnd. lia.
Qed.

(** If the task is done at poll [i + k], any number of polls above [k]
    returns its result. *)
Lemma poll_loop_done_at k i t fuel :
  task_done t (i + k) = true → k < fuel → poll_loop fuel i t = Some (task_result t).
Proof.
  revert i fuel. induction k as [|k IH]; intros i fuel Hd Hf;
    (destruct fuel as [|f]; [lia|]); rewrite poll_loop_S.
  - by rewrite Nat.add_0_r in Hd; rewrite Hd.
  - destruct (task_done t i); [done|].
    apply IH; [by replace (S i + k) with (i + S k) by lia|lia].
Qed.

(** C7: [blocking_call]'s polling loop terminates: when the task is first
    done at poll [k], [k] polls do not return and every number of polls
    above [k] returns exactly [task.result()], the response or the
    exception the coroutine raised. *)
Theorem poll_loop_terminates (t : Task) (k : nat) :
  (∀ j, j < k → task_done t j = false) → task_done t k = true →
  poll_loop k 0 t = None ∧ ∀ fuel, k < fuel → poll_loop fuel 0 t = Some (task_result t).
Proof.
  intros Hbefore Hk. split.
  - apply poll_loop_not_done. intros j Hj. apply Hbefore. lia.
  - intros fuel Hf. by apply (poll_loop_done_at k 0).
Qed.

(** C21: [blocking_call] has no timeout of its own: for a task that never
    completes (an event loop that stopped, a coroutine that never
    answers), no number of polls returns. *)
Theorem poll_loop_never_done (t : Task) :
  (∀ j, task_done t j = false) → ∀ fuel, poll_loop fuel 0 t = None.
Proof. intros Hnd fuel. apply poll_loop_not_done. auto. Qed.

Section run_lemmas.
Context {St A : Type}.

Lemma run_comm_ext (c1 c2 : Comm St) (p : prog A) (s : St) :
  (∀ s req, c1 s req = c2 s req) → @run St c1 A p s = @run St c2 A p s.
Proof.
  intros Hc. revert s. induction p as [o|req k IH]; intros s; [done|].
  simpl. unfold comm_call. rewrite Hc. destruct (c2 s req) as [s' o].
  destruct o; [rewrite IH..|]; done.
Qed.
End run_lemmas.

Section async_refinement.
Context `{station : Comm St} (latency : St → Request → nat) (fuel : nat).

(** One call through the bridge answers what the station answers, when
    the task completes within the polls. *)
Lemma blocking_call_station s req :
  latency s req < fuel → blocking_call latency fuel s req = comm_call s req.
Proof.
  intros Hl. unfold blocking_call, submit. destruct (comm_call s req) as [s' o].
  rewrite (poll_loop_done_at (latency s req) 0); [done| |done].
  simpl. apply Nat.leb_le. lia.
Qed.

(** C8: Refinement of the call interface: when every call the station
    receives completes within the polls allowed, running a proxy
    operation through [AsyncCommunicator.blocking_call] sends the same
    requests, leaves the station in the same state and has the same
    outcome as running it against the station directly. *)
Theorem async_comm_refines {A} (p : prog A) (s : St) :
  (∀ s' req, latency s' req < fuel) →
  @run St (async_comm latency fuel) A p s = @run St station A p s.
Proof. intros Hl. apply run_comm_ext. intros s' req. by apply blocking_call_station. Qed.
End async_refinement.


(** ** Witnesses *)

(** A task that completes at the third poll. *)
Definition task_at_2 : Task :=
  {| task_done := λ i, (2 <=? i)%nat; task_result := Ret (TriggerMessageResult "Accepted") |}.

Lemma poll_loop_terminates_witness :
  poll_loop 2 0 task_at_2 = None ∧ poll_loop 3 0 task_at_2 = Some (Ret (TriggerMessageResult "Accepted")).
Proof.
  destruct (poll_loop_terminates task_at_2 2) as [H0 H1].
  - intros j Hj. apply Nat.leb_gt. lia.
  - reflexivity.
  - split; [exact H0|]. apply H1. lia.
Defined.

Lemma poll_loop_never_done_witness :
  poll_loop 50 0 {| task_done := λ _, false; task_result := Raise (CallFailed "timeout") |} = None.
Proof. apply poll_loop_never_done. reflexivity. Defined.

Lemma async_comm_refines_witness :
  @run _ (async_comm (λ _ _, 3%nat) 4) _
       (Call (TriggerMessagePayload "Heartbeat") (λ o, Done o))
       (Ret (TriggerMessageResult "Rejected") : outcome exn Response)
  = @run _ mock_comm _ (Call (TriggerMessagePayload "Heartbeat") (λ o, Done o))
       (Ret (TriggerMessageResult "Rejected")).
Proof. apply async_comm_refines. intros _ _. lia. Defined.
