(* ===== verification/Proxy.v ===== *)
(** * [ChargePointProxy]: one station session

    The state of a proxy (ChargePointProxy.py lines 19-31) is its station id,
    the FIFO [self.__msgq] of trapped notifications and the set
    [self.__awaited_msgs] of trapped names.  The communicator is not part of
    the record: the outbound operations are [prog]s run against a [Comm]
    (Bridge.v).

    - Handlers (lines 36-70) and the routing table the [@on] decorators
      register ([route]): each handler pushes its payload when its name is
      trapped and returns its acknowledgement; an action with no handler is
      answered with the library's NotImplemented error and changes nothing.
    - Trap operations: [add_msg_trap] (145-153), [wait_msg] (155-173) with
      the [Queue.get(timeout=...)] it calls ([queue_get]), [clear_msg_queue]
      (175-179).  [wait_msg] runs on a caller thread; in this sequential
      model nothing arrives while it waits, so an empty queue with a finite
      timeout is a timeout and with [timeout=None] it blocks for ever.  The
      interleaved model is the subject of a later file.
    - Outbound operations: [trigger_message] (72-96), the [light_intensity]
      getter (99-122) and setter (124-143).

    Theorems: the behaviour of every operation on each of its branches,
    the shared FIFO of [wait_msg] (a wait for one name returns whatever is
    at the head), the traps left armed by a timeout or by a wait without a
    name, and the set-then-get round trip through a station that stores its
    configuration. *)

From S2P Require Import Prelude PyText Ocpp Bridge.
From Stdlib Require Import QArith.

(** ** State *)

Record Proxy := mkProxy {
  cp_id : string;
  msgq : list Notification;
  awaited : gset (option string)
}.

(** [ChargePointProxy(charge_point_id, socket)]: an empty queue and no trap. *)
Definition new_proxy (id : string) : Proxy := mkProxy id [] ∅.

Definition set_msgq (p : Proxy) (q : list Notification) : Proxy :=
  mkProxy (cp_id p) q (awaited p).
Definition set_awaited (p : Proxy) (s : gset (option string)) : Proxy :=
  mkProxy (cp_id p) (msgq p) s.

(** ** Notification handlers *)

(** [if "<name>" in self.__awaited_msgs: self.__msgq.put(payload)] *)
Definition trap_push (name : string) (n : Notification) (p : Proxy) : Proxy :=
  if decide (Some name ∈ awaited p) then set_msgq p (msgq p ++ [n]) else p.

Definition on_boot_notification (now : datetime) (fields : Fields) (p : Proxy) : Proxy * Ack :=
  (trap_push "BootNotification" (BootNotificationPayload fields) p,
   BootNotificationAck (isoformat now) 5 "Accepted").

Definition on_heartbeat (now : datetime) (p : Proxy) : Proxy * Ack :=
  (trap_push "Heartbeat" HeartbeatPayload p, HeartbeatAck (heartbeat_time now)).

Definition on_status_notification (fields : Fields) (p : Proxy) : Proxy * Ack :=
  (trap_push "StatusNotification" (StatusNotificationPayload fields) p, StatusNotificationAck).

(** What the routing of an incoming call sends back. *)
Inductive Reply :=
  | AckReply (a : Ack)
  | NotImplementedError (action : string).

(** The table [@on('BootNotification')], [@on('Heartbeat')],
    [@on('StatusNotification')] build: an incoming call is routed by its
    action name. *)
Definition route (now : datetime) (action : string) (fields : Fields) (p : Proxy)
    : Proxy * Reply :=
  if decide (action = "BootNotification") then
    let '(p', a) := on_boot_notification now fields p in (p', AckReply a)
  else if decide (action = "Heartbeat") then
    let '(p', a) := on_heartbeat now p in (p', AckReply a)
  else if decide (action = "StatusNotification") then
    let '(p', a) := on_status_notification fields p in (p', AckReply a)
  else (p, NotImplementedError action).

(** ** Trap operations *)

Definition add_msg_trap (msg : option string) (p : Proxy) : Proxy :=
  if decide (msg ∈ awaited p) then p else set_awaited p ({[msg]} ∪ awaited p).

(** [Queue.get(timeout=t)] on a queue nothing else feeds: [None] waits for
    ever, a negative timeout is a [ValueError], an empty queue raises
    [queue.Empty] once the timeout has passed. *)
Definition queue_get (q : list Notification) (timeout : option Q)
    : outcome exn (Notification * list Notification) :=
  match timeout with
  | None => match q with n :: r => Ret (n, r) | [] => Hang end
  | Some t =>
      if Qlt_le_dec t 0 then Raise ValueError
      else match q with n :: r => Ret (n, r) | [] => Raise QueueEmpty end
  end.

Definition wait_timeout_msg : string := "Wait timedout, no message received".

(** [wait_msg(msg=None, timeout=1)] *)
Definition wait_msg (msg : option string) (timeout : option Q) (p : Proxy)
    : Proxy * outcome exn Notification :=
  let p1 := add_msg_trap msg p in
  match queue_get (msgq p1) timeout with
  | Ret (recv, rest) =>
      let p2 := set_msgq p1 rest in
      if decide (msg ∈ awaited p2) then (set_awaited p2 (awaited p2 ∖ {[msg]}), Ret recv)
      else (p2, Raise KeyError)
  | Raise QueueEmpty => (p1, Raise (TimeoutException wait_timeout_msg))
  | Raise e => (p1, Raise e)
  | Hang => (p1, Hang)
  end.

Definition wait_msg_default (p : Proxy) := wait_msg None (Some 1%Q) p.

(** [self.__msgq = queue.Queue()] *)
Definition clear_msg_queue (p : Proxy) : Proxy := set_msgq p [].

(** ** Outbound operations *)

Definition triggable_msgs : list string :=
  ["BootNotification"; "DiagnosticsStatusNotification"; "FirmwareStatusNotification";
   "Heartbeat"; "MeterValues"; "StatusNotification"].

Definition trigger_message (msg : string) : prog Response :=
  if decide (msg ∈ triggable_msgs) then
    Call (TriggerMessagePayload msg) (λ o, Done (
      resp ← o;
      st ← status_of resp;
      if decide (st = "Accepted") then Ret resp
      else Raise (TriggerMessageException
                    ("Message " +:+ msg +:+ " was rejected, reason: " +:+ st))))
  else Done (Raise (TriggerMessageException ("Message " +:+ msg +:+ " is not triggable"))).

(** [int(resp.configuration_key[0]["value"])] *)
Definition read_config_value (resp : Response) : outcome exn Z :=
  match resp with
  | GetConfigurationResult (Some (k :: _)) _ =>
      match ck_value k with
      | Some v => match py_int v with Some z => Ret z | None => Raise ValueError end
      | None => Raise KeyError
      end
  | GetConfigurationResult (Some []) _ => Raise IndexError
  | GetConfigurationResult None _ => Raise TypeError
  | _ => Raise AttributeError
  end.

(** The [light_intensity] getter: any exception of the call gives [-1]. *)
Definition light_intensity_get : prog Z :=
  Call (GetConfigurationPayload ["LightIntensity"]) (λ o, Done (
    match o with
    | Ret resp => read_config_value resp
    | Raise _ => Ret (-1)%Z
    | Hang => Hang
    end)).

Definition light_intensity_set (val : Z) : prog unit :=
  if decide (val < 0 ∨ 100 < val)%Z then
    Done (Raise (ChangeConfigurationException "Light intensity value out of range"))
  else
    Call (ChangeConfigurationPayload "LightIntensity" (py_str val)) (λ o, Done (
      resp ← o;
      st ← status_of resp;
      if decide (st = "Accepted") then Ret ()
      else Raise (ChangeConfigurationException
                    ("Unable to change light intensity. ChargePoint reported " +:+ st)))).

(** ** A station that keeps its configuration *)

(** An OCPP station as the tests of the light intensity assume one: it
    accepts every configuration change and every trigger, and reports the
    stored value of the keys it knows. *)
#[export] Instance config_station : Comm (gmap string string) := λ st req,
  match req with
  | ChangeConfigurationPayload k v => (<[k := v]> st, Ret (ChangeConfigurationResult "Accepted"))
  | GetConfigurationPayload keys =>
      (st, Ret (GetConfigurationResult
                  (Some (omap (λ k, (λ v, {| ck_key := k; ck_readonly := false;
                                            ck_value := Some v |}) <$> st !! k) keys))
                  (Some (omap (λ k, match st !! k with Some _ => None | None => Some k end)
                              keys))))
  | TriggerMessagePayload _ => (st, Ret (TriggerMessageResult "Accepted"))
  end.

(** ** Lemmas on the trap operations *)

Lemma add_msg_trap_awaited msg p : awaited (add_msg_trap msg p) = {[msg]} ∪ awaited p.
Proof. unfold add_msg_trap. case_decide; simpl; [set_solver|done]. Qed.

Lemma add_msg_trap_msgq msg p : msgq (add_msg_trap msg p) = msgq p.
Proof. unfold add_msg_trap. by case_decide. Qed.

Lemma add_msg_trap_id msg p : cp_id (add_msg_trap msg p) = cp_id p.
Proof. unfold add_msg_trap. by case_decide. Qed.

#[export] Hint Rewrite add_msg_trap_awaited add_msg_trap_msgq add_msg_trap_id : ca.

Lemma queue_get_nonneg q t :
  (0 <= t)%Q → queue_get q (Some t) = match q with n :: r => Ret (n, r) | [] => Raise QueueEmpty end.
Proof. intros Ht. simpl. destruct (Qlt_le_dec t 0) as [Hlt|]; [|done]. exfalso. by apply (Qlt_not_le _ _ Hlt). Qed.

(** The result of [wait_msg] when [Queue.get] hands over [recv]. *)
Lemma wait_msg_got msg timeout p recv rest :
  queue_get (msgq p) timeout = Ret (recv, rest) →
  wait_msg msg timeout p =
    (mkProxy (cp_id p) rest (({[msg]} ∪ awaited p) ∖ {[msg]}), Ret recv).
Proof.
  intros Hq. destruct p as [id q aw]. simpl in Hq. unfold wait_msg, add_msg_trap. simpl.
  case_decide as Hin; simpl; rewrite Hq; simpl; (case_decide; [|set_solver]);
    repeat f_equal; set_solver.
Qed.

Lemma trap_push_id name n p : cp_id (trap_push name n p) = cp_id p.
Proof. unfold trap_push. by case_decide. Qed.

Lemma route_id now action fields p : cp_id (fst (route now action fields p)) = cp_id p.
Proof. unfold route. repeat case_decide; simpl; by rewrite ?trap_push_id. Qed.

Lemma wait_msg_id msg timeout p : cp_id (fst (wait_msg msg timeout p)) = cp_id p.
Proof.
  unfold wait_msg. destruct (queue_get _ _) as [[recv rest]|[]|]; simpl;
    rewrite ?add_msg_trap_id; try done. case_decide; simpl; by rewrite add_msg_trap_id.
Qed.

#[export] Hint Rewrite trap_push_id route_id wait_msg_id : ca.

(** ** Theorems: handlers and routing *)

(** The fields a notification was built from, and the acknowledgement the
    protocol prescribes for it. *)
Definition notification_fields (n : Notification) : Fields :=
  match n with
  | BootNotificationPayload f | StatusNotificationPayload f => f
  | HeartbeatPayload => []
  end.

Definition notification_ack (now : datetime) (n : Notification) : Ack :=
  match n with
  | BootNotificationPayload _ => BootNotificationAck (isoformat now) 5 "Accepted"
  | HeartbeatPayload => HeartbeatAck (heartbeat_time now)
  | StatusNotificationPayload _ => StatusNotificationAck
  end.

Lemma route_trap_push now n p :
  route now (notification_name n) (notification_fields n) p =
    (trap_push (notification_name n) n p, AckReply (notification_ack now n)).
Proof. destruct n; unfold route; simpl; repeat case_decide; simplify_eq; done. Qed.

(** C4: Routing an incoming notification by its action name runs its
    handler: the payload is appended to the queue exactly when its name is
    trapped, the trap set and the id are unchanged, and the reply is the
    acknowledgement of that notification type. *)
Theorem route_notification now n p :
  route now (notification_name n) (notification_fields n) p =
    (mkProxy (cp_id p)
       (if decide (Some (notification_name n) ∈ awaited p) then msgq p ++ [n] else msgq p)
       (awaited p),
     AckReply (notification_ack now n)).
Proof. rewrite route_trap_push. destruct p. unfold trap_push. by case_decide. Qed.

(** An incoming call whose action has no handler changes nothing and
    is answered with NotImplemented. *)
Theorem route_unknown now action fields p :
  action ∉ ["BootNotification"; "Heartbeat"; "StatusNotification"] →
  route now action fields p = (p, NotImplementedError action).
Proof. intros Hn. unfold route. repeat case_decide; set_solver. Qed.

(** ** Theorems: the trap queue *)

(** C2: [wait_msg(name, t)] with [t >= 0] on a non-empty queue returns the
    head of the queue, whatever its type: the queue is one FIFO shared by
    every trapped name, so a wait for ["Heartbeat"] can return a queued
    BootNotification.  The head is removed and so is the trap on [name]. *)
Theorem wait_msg_shared_fifo (name : option string) (t : Q) p recv rest :
  (0 <= t)%Q → msgq p = recv :: rest →
  wait_msg name (Some t) p = (mkProxy (cp_id p) rest (awaited p ∖ {[name]}), Ret recv).
Proof.
  intros Ht Hq. rewrite (wait_msg_got _ _ _ recv rest).
  - by replace (({[name]} ∪ awaited p) ∖ {[name]}) with (awaited p ∖ {[name]}) by set_solver.
  - by rewrite queue_get_nonneg, Hq.
Qed.

(** C14: [wait_msg(name, t)] with [t >= 0] on an empty queue raises
    [TimeoutException] and leaves the trap on [name] armed. *)
Theorem wait_msg_timeout (name : option string) (t : Q) p :
  (0 <= t)%Q → msgq p = [] →
  wait_msg name (Some t) p = (add_msg_trap name p, Raise (TimeoutException wait_timeout_msg))
  ∧ name ∈ awaited (add_msg_trap name p).
Proof.
  intros Ht Hq. split; [|rewrite add_msg_trap_awaited; set_solver].
  unfold wait_msg. by rewrite add_msg_trap_msgq, queue_get_nonneg, Hq.
Qed.

(** C23: A negative timeout makes [Queue.get] raise [ValueError] even when
    a message is waiting: the message stays queued and the trap armed. *)
Theorem wait_msg_negative_timeout (name : option string) (t : Q) p :
  (t < 0)%Q → wait_msg name (Some t) p = (add_msg_trap name p, Raise ValueError).
Proof.
  intros Ht. unfold wait_msg. rewrite add_msg_trap_msgq. simpl.
  destruct (Qlt_le_dec t 0) as [_|Hle]; [done|]. exfalso. by apply (Qlt_not_le _ _ Ht).
Qed.

(** With [timeout=None] and nothing queued, the waiting caller blocks
    for ever unless another thread feeds the queue. *)
Theorem wait_msg_no_timeout_blocks (name : option string) p :
  msgq p = [] → wait_msg name None p = (add_msg_trap name p, Hang).
Proof. intros Hq. unfold wait_msg. by rewrite add_msg_trap_msgq, Hq. Qed.

(** C22: Run alone, [wait_msg] never reaches the [KeyError] of
    [self.__awaited_msgs.remove(msg)]: the trap it removes is the one it
    has just added.  (Only an interleaved caller can remove it first.) *)
Theorem wait_msg_no_key_error (name : option string) (timeout : option Q) p :
  snd (wait_msg name timeout p) ≠ Raise KeyError.
Proof.
  unfold wait_msg. destruct (queue_get (msgq (add_msg_trap name p)) timeout)
    as [[recv rest]|e|] eqn:Hq; simpl.
  - rewrite add_msg_trap_awaited. case_decide; [done|set_solver].
  - destruct e; try done. unfold queue_get in Hq. destruct timeout as [t|].
    + destruct (Qlt_le_dec t 0); [|destruct (msgq _)]; done.
    + by destruct (msgq _).
  - done.
Qed.

(** C15: [wait_msg()] without a name traps and untraps [None], never the
    name that was trapped: after [add_msg_trap("Heartbeat")], a heartbeat
    and [wait_msg()], the trap on ["Heartbeat"] is still armed, so the next
    heartbeat is queued again and is what a later
    [wait_msg("StatusNotification")] returns. *)
Theorem wait_msg_without_name_keeps_trap now now' p :
  Some "Heartbeat" ∈ awaited p → msgq p = [] →
  let p1 := fst (on_heartbeat now p) in
  snd (wait_msg None (Some 1%Q) p1) = Ret HeartbeatPayload ∧
  Some "Heartbeat" ∈ awaited (fst (wait_msg None (Some 1%Q) p1)) ∧
  snd (wait_msg (Some "StatusNotification") (Some 1%Q)
         (fst (on_heartbeat now' (fst (wait_msg None (Some 1%Q) p1))))) = Ret HeartbeatPayload.
Proof.
  intros Hin Hq. simpl. unfold trap_push. rewrite decide_True by done. simpl.
  rewrite Hq. rewrite (wait_msg_got None _ _ HeartbeatPayload []) by done. simpl.
  split; [done|]. split; [set_solver|].
  rewrite decide_True by set_solver. simpl.
  by rewrite (wait_msg_got _ _ _ HeartbeatPayload []).
Qed.



(** ** Theorems: outbound operations *)

Section outbound.
Context `{Comm St}.

(** C9: [trigger_message] with a name outside the allow-list raises
    [TriggerMessageException] before sending anything. *)
Theorem trigger_message_not_triggable (msg : string) (s : St) :
  msg ∉ triggable_msgs →
  run (trigger_message msg) s =
    ([], s, Raise (TriggerMessageException ("Message " +:+ msg +:+ " is not triggable"))).
Proof. intros Hn. unfold trigger_message. by rewrite decide_False. Qed.

(** C10: [trigger_message] with an allowed name sends exactly one
    [TriggerMessage] request naming it; it returns the response when its
    status is "Accepted" and raises [TriggerMessageException] carrying
    the reported status otherwise; an exception of the call propagates. *)
Theorem trigger_message_sent (msg : string) (s s' : St) (o : outcome exn Response) :
  msg ∈ triggable_msgs → comm_call s (TriggerMessagePayload msg) = (s', o) → o ≠ Hang →
  run (trigger_message msg) s =
    ([TriggerMessagePayload msg], s',
     resp ← o;
     st ← status_of resp;
     if decide (st = "Accepted") then Ret resp
     else Raise (TriggerMessageException
                   ("Message " +:+ msg +:+ " was rejected, reason: " +:+ st))).
Proof.
  intros Hin Hc Ho. unfold trigger_message. rewrite decide_True by done.
  simpl. rewrite Hc. destruct o; done.
Qed.

(** C11: The light-intensity setter rejects a value outside [0, 100]
    with [ChangeConfigurationException] before sending anything. *)
Theorem light_intensity_set_out_of_range (val : Z) (s : St) :
  (val < 0 ∨ 100 < val)%Z →
  run (light_intensity_set val) s =
    ([], s, Raise (ChangeConfigurationException "Light intensity value out of range")).
Proof. intros Hv. unfold light_intensity_set. by rewrite decide_True. Qed.

(** C12: For [val] in [0, 100] the setter sends one
    [ChangeConfiguration] request with key "LightIntensity" and value
    [str(val)], succeeds when the station answers "Accepted" and raises
    [ChangeConfigurationException] with the reported status otherwise. *)
Theorem light_intensity_set_sent (val : Z) (s s' : St) (o : outcome exn Response) :
  (0 <= val <= 100)%Z →
  comm_call s (ChangeConfigurationPayload "LightIntensity" (py_str val)) = (s', o) → o ≠ Hang →
  run (light_intensity_set val) s =
    ([ChangeConfigurationPayload "LightIntensity" (py_str val)], s',
     resp ← o;
     st ← status_of resp;
     if decide (st = "Accepted") then Ret ()
     else Raise (ChangeConfigurationException
                   ("Unable to change light intensity. ChargePoint reported " +:+ st))).
Proof.
  intros Hv Hc Ho. unfold light_intensity_set. rewrite decide_False by lia.
  simpl. rewrite Hc. destruct o; done.
Qed.

(** C13: The getter sends one [GetConfiguration] request for
    ["LightIntensity"]; if the call raises, it returns [-1]; otherwise it
    returns [int()] of the first reported value, and the [IndexError],
    [KeyError], [TypeError] or [ValueError] of reading it is not
    caught. *)
Theorem light_intensity_get_spec (s s' : St) (o : outcome exn Response) :
  comm_call s (GetConfigurationPayload ["LightIntensity"]) = (s', o) → o ≠ Hang →
  run light_intensity_get s =
    ([GetConfigurationPayload ["LightIntensity"]], s',
     match o with Ret resp => read_config_value resp | _ => Ret (-1)%Z end).
Proof. intros Hc Ho. unfold light_intensity_get. simpl. rewrite Hc. by destruct o. Qed.
End outbound.

(** ** Theorems: the light intensity against a station *)

(** Set-then-get against a station that stores its configuration. *)
Lemma light_intensity_roundtrip_station (v : Z) (st : gmap string string) :
  (0 <= v <= 100)%Z →
  run (pbind (light_intensity_set v) (λ _, light_intensity_get)) st =
    ([ChangeConfigurationPayload "LightIntensity" (py_str v);
      GetConfigurationPayload ["LightIntensity"]],
     <["LightIntensity" := py_str v]> st, Ret v).
Proof.
  intros Hv. unfold light_intensity_set. rewrite decide_False by lia.
  simpl. rewrite lookup_insert_eq. simpl. by rewrite py_int_of_py_str.
Qed.

(** C3: The round trip holds end to end through
    [AsyncCommunicator.blocking_call] whenever every call completes within
    the polls allowed. *)
Theorem light_intensity_roundtrip_async (latency : gmap string string → Request → nat)
    (fuel : nat) (v : Z) (st : gmap string string) :
  (0 <= v <= 100)%Z → (∀ s req, latency s req < fuel)%nat →
  @run _ (async_comm latency fuel) _ (pbind (light_intensity_set v) (λ _, light_intensity_get)) st =
    ([ChangeConfigurationPayload "LightIntensity" (py_str v);
      GetConfigurationPayload ["LightIntensity"]],
     <["LightIntensity" := py_str v]> st, Ret v).
Proof.
  intros Hv Hl. rewrite (run_comm_ext _ config_station) by (intros; by apply blocking_call_station).
  by apply light_intensity_roundtrip_station.
Qed.

(** C20: Reading the light intensity from a station that does not report
    the key raises [IndexError] from [configuration_key[0]]: the getter's
    [try] covers only the call, so there is no [-1] fallback here. *)
Theorem light_intensity_get_unknown_key (st : gmap string string) :
  st !! "LightIntensity" = None →
  run light_intensity_get st = ([GetConfigurationPayload ["LightIntensity"]], st, Raise IndexError).
Proof. intros Hn. unfold light_intensity_get. simpl. by rewrite Hn. Qed.

(** The getter's [-1] is ambiguous: a call that fails and a station
    that reports the value "-1" give the same result. *)
Theorem light_intensity_get_sentinel_ambiguous (reason : string) :
  snd (run (St := outcome exn Response) light_intensity_get (Raise (CallFailed reason))) = Ret (-1)%Z ∧
  snd (run (St := outcome exn Response) light_intensity_get
         (Ret (GetConfigurationResult
                 (Some [{| ck_key := "LightIntensity"; ck_readonly := false;
                           ck_value := Some "-1" |}]) None))) = Ret (-1)%Z.
Proof. split; reflexivity. Qed.

(** ** Witnesses *)

Definition now0 : datetime :=
  {| dt_year := 2020; dt_month := 5; dt_day := 17; dt_hour := 9; dt_minute := 3;
     dt_second := 7; dt_microsecond := 120 |}.

Definition boot0 : Notification := BootNotificationPayload [("charge_point_vendor", "ChargeAmps")].

(** A proxy with a trap on heartbeats and a queued boot notification. *)
Definition proxy_boot_queued : Proxy := mkProxy "CP1" [boot0] {[Some "Heartbeat"]}.

Definition proxy_hb_trapped : Proxy := mkProxy "CP1" [] {[Some "Heartbeat"]}.

Lemma route_unknown_witness :
  route now0 "Authorize" [] proxy_hb_trapped = (proxy_hb_trapped, NotImplementedError "Authorize").
Proof. apply route_unknown. set_solver. Defined.

Lemma wait_msg_shared_fifo_witness :
  wait_msg (Some "Heartbeat") (Some 1%Q) proxy_boot_queued = (mkProxy "CP1" [] ∅, Ret boot0).
Proof.
  rewrite (wait_msg_shared_fifo _ 1 proxy_boot_queued boot0 []);
    [simpl; do 2 f_equal; set_solver|by vm_compute..|reflexivity].
Defined.

Lemma wait_msg_timeout_witness :
  wait_msg (Some "Heartbeat") (Some (1#10)%Q) (new_proxy "CP1")
  = (add_msg_trap (Some "Heartbeat") (new_proxy "CP1"), Raise (TimeoutException wait_timeout_msg)).
Proof. apply wait_msg_timeout; [by vm_compute|reflexivity]. Defined.

Lemma wait_msg_negative_timeout_witness :
  wait_msg (Some "Heartbeat") (Some (-1)%Q) proxy_boot_queued
  = (add_msg_trap (Some "Heartbeat") proxy_boot_queued, Raise ValueError).
Proof. apply wait_msg_negative_timeout. reflexivity. Defined.

Lemma wait_msg_no_timeout_blocks_witness :
  wait_msg None None (new_proxy "CP1") = (add_msg_trap None (new_proxy "CP1"), Hang).
Proof. apply wait_msg_no_timeout_blocks. reflexivity. Defined.

Lemma wait_msg_without_name_keeps_trap_witness :
  snd (wait_msg (Some "StatusNotification") (Some 1%Q)
         (fst (on_heartbeat now0 (fst (wait_msg None (Some 1%Q)
                                         (fst (on_heartbeat now0 proxy_hb_trapped)))))))
  = Ret HeartbeatPayload.
Proof. apply (wait_msg_without_name_keeps_trap now0 now0 proxy_hb_trapped); [set_solver|reflexivity]. Defined.

Lemma trigger_message_not_triggable_witness :
  run (trigger_message "StopTransaction") (Ret (TriggerMessageResult "Accepted") : outcome exn Response)
  = ([], Ret (TriggerMessageResult "Accepted"),
     Raise (TriggerMessageException "Message StopTransaction is not triggable")).
Proof. apply trigger_message_not_triggable. set_solver. Defined.

Lemma trigger_message_sent_witness :
  run (trigger_message "Heartbeat") (Ret (TriggerMessageResult "Rejected") : outcome exn Response)
  = ([TriggerMessagePayload "Heartbeat"], Ret (TriggerMessageResult "Rejected"),
     Raise (TriggerMessageException "Message Heartbeat was rejected, reason: Rejected")).
Proof.
  rewrite (trigger_message_sent "Heartbeat" _ (Ret (TriggerMessageResult "Rejected"))
             (Ret (TriggerMessageResult "Rejected")));
    [reflexivity|set_solver|reflexivity|discriminate].
Defined.

Lemma light_intensity_set_out_of_range_witness :
  run (light_intensity_set 110) (Ret (ChangeConfigurationResult "Accepted") : outcome exn Response)
  = ([], Ret (ChangeConfigurationResult "Accepted"),
     Raise (ChangeConfigurationException "Light intensity value out of range")).
Proof. apply light_intensity_set_out_of_range. lia. Defined.

Lemma light_intensity_set_sent_witness :
  run (light_intensity_set 90) (Ret (ChangeConfigurationResult "Rejected") : outcome exn Response)
  = ([ChangeConfigurationPayload "LightIntensity" "90"], Ret (ChangeConfigurationResult "Rejected"),
     Raise (ChangeConfigurationException
              "Unable to change light intensity. ChargePoint reported Rejected")).
Proof.
  rewrite (light_intensity_set_sent 90 _ (Ret (ChangeConfigurationResult "Rejected"))
             (Ret (ChangeConfigurationResult "Rejected")));
    [reflexivity|lia|reflexivity|discriminate].
Defined.

Lemma light_intensity_get_spec_witness :
  run light_intensity_get (Raise (CallFailed "ConnectionClosed") : outcome exn Response)
  = ([GetConfigurationPayload ["LightIntensity"]], Raise (CallFailed "ConnectionClosed"), Ret (-1)%Z).
Proof.
  rewrite (light_intensity_get_spec _ (Raise (CallFailed "ConnectionClosed"))
             (Raise (CallFailed "ConnectionClosed"))); [reflexivity..|discriminate].
Defined.

Lemma light_intensity_roundtrip_async_witness :
  snd (@run _ (async_comm (λ _ _, 2%nat) 5) _
         (pbind (light_intensity_set 100) (λ _, light_intensity_get)) (∅ : gmap string string))
  = Ret 100%Z.
Proof. rewrite light_intensity_roundtrip_async; [reflexivity|lia|intros; lia]. Defined.

Lemma light_intensity_get_unknown_key_witness :
  snd (run light_intensity_get (∅ : gmap string string)) = Raise IndexError.
Proof. rewrite light_intensity_get_unknown_key; reflexivity. Defined.
