(* ===== verification/Registry.v ===== *)
(** * [CentralSystem]: the connection registry

    The registry (CentralSystem.py) keeps the list
    [self.__connected_chargepoints] of proxies in connection order and the
    [threading.Event] [self.__conn_event].  A proxy is a mutable object the
    list holds by reference: here the list is a [list Proxy] updated by
    index, and a reference to a proxy is its index in the list.

    - [serve] (62-67) resets the list and the event and starts the server
      thread; [Thread(...).start()] returns [None], which is what
      [self.__thread] holds, so [is_active] (69-70) raises.
    - [on_connect] (15-24) derives the id with [path.strip('/')], appends a
      new proxy and sets the event; the dispatch loop of that connection
      then delivers each incoming call to that proxy ([deliver], the
      [await cp.start()] of line 27, routed by [Proxy.route]).
    - [has_connections] (31-35), [find_chargepoint] (37-48) which returns
      the first proxy with the id, and [wait_for_connection] (72-76).
    - [reg_step] is the registry's transition relation: a connection, a
      delivered call on one connection, a connection query, and a caller's
      trap operation on a proxy found by id.  [reachable] is its closure
      from [serve].

    Theorems: the connection query and its departures from the spec, the
    duplicate-id behaviour, and the registry invariant (a set event implies
    a session, so the query never indexes an empty list) by rule
    induction. *)

From S2P Require Import Prelude PyText Ocpp Bridge Proxy.
From Stdlib Require Import QArith.

(** ** State *)

Record CentralSystem := mkCS {
  connected_chargepoints : list Proxy;
  conn_event : bool;
  cs_addr : string;
  cs_port : Z;
  (** [self.__thread]: the value [Thread.start()] returned *)
  cs_thread : option unit
}.

Definition set_chargepoints (cs : CentralSystem) (l : list Proxy) (ev : bool) : CentralSystem :=
  mkCS l ev (cs_addr cs) (cs_port cs) (cs_thread cs).

(** ** Operations *)

Definition serve (addr : string) (port : Z) : CentralSystem :=
  mkCS [] false addr port None.

Definition is_active (cs : CentralSystem) : outcome exn bool :=
  match cs_thread cs with
  | None => Raise AttributeError
  | Some _ => Ret true
  end.

Definition station_id_of_path (path : string) : string := py_strip ["/"%char] path.

Definition on_connect (path : string) (cs : CentralSystem) : CentralSystem :=
  let cp := new_proxy (station_id_of_path path) in
  set_chargepoints cs (connected_chargepoints cs ++ [cp]) true.

Definition has_connections (cs : CentralSystem) : bool :=
  bool_decide (0 < List.length (connected_chargepoints cs))%nat.

(** [find_chargepoint] as written: [cp = [x for x in
    self.__connected_chargepoints if x.id == cp_id]];
    [if len(cp) == 0: raise Exception(...)]; [return cp[0]]. *)
Definition find_chargepoint_py (cp_id_ : string) (cs : CentralSystem) : outcome exn Proxy :=
  let cp := filter (λ x, cp_id x = cp_id_) (connected_chargepoints cs) in
  if decide (List.length cp = 0%nat) then Raise (PyException ("Chargepoint " +:+ cp_id_ +:+ " not connected"))
  else match cp !! 0%nat with Some x => Ret x | None => Raise IndexError end.

(** The same search by a first-match scan that also gives the position of
    the session in the list, which the registry transitions use to update
    it in place. *)
Definition find_chargepoint (cp_id_ : string) (cs : CentralSystem) : outcome exn (nat * Proxy) :=
  match list_find (λ p, cp_id p = cp_id_) (connected_chargepoints cs) with
  | Some ip => Ret ip
  | None => Raise (PyException ("Chargepoint " +:+ cp_id_ +:+ " not connected"))
  end.

(** [if not self.has_connections(): self.__conn_event.wait()];
    [self.__conn_event.clear()]; [return self.__connected_chargepoints[-1].id].
    The wait blocks for ever when the event is clear and no other thread
    connects. *)
Definition wait_for_connection (cs : CentralSystem) : CentralSystem * outcome exn string :=
  if negb (has_connections cs) && negb (conn_event cs) then (cs, Hang)
  else (set_chargepoints cs (connected_chargepoints cs) false,
        match last (connected_chargepoints cs) with
        | Some p => Ret (cp_id p)
        | None => Raise IndexError
        end).

(** The dispatch loop of connection [j] hands one incoming call to the proxy
    that connection created. *)
Definition deliver (now : datetime) (j : nat) (action : string) (fields : Fields)
    (cs : CentralSystem) : CentralSystem * option Reply :=
  match connected_chargepoints cs !! j with
  | Some p =>
      let '(p', r) := route now action fields p in
      (set_chargepoints cs (<[j := p']> (connected_chargepoints cs)) (conn_event cs), Some r)
  | None => (cs, None)
  end.

(** A caller's operation on the proxy [find_chargepoint] returns, written
    back to the object's place in the list. *)
Definition with_chargepoint {A} (cp_id_ : string) (f : Proxy → Proxy * outcome exn A)
    (cs : CentralSystem) : CentralSystem * outcome exn A :=
  match find_chargepoint cp_id_ cs with
  | Ret (i, p) =>
      let '(p', r) := f p in
      (set_chargepoints cs (<[i := p']> (connected_chargepoints cs)) (conn_event cs), r)
  | Raise e => (cs, Raise e)
  | Hang => (cs, Hang)
  end.

(** ** Transitions *)

(** The caller-side trap operations a test can run on a proxy by id. *)
Inductive trap_op :=
  | OpAddTrap (msg : option string)
  | OpWait (msg : option string) (timeout : option Q)
  | OpClear.

Definition run_trap_op (op : trap_op) (p : Proxy) : Proxy * outcome exn (option Notification) :=
  match op with
  | OpAddTrap msg => (add_msg_trap msg p, Ret None)
  | OpWait msg t => let '(p', r) := wait_msg msg t p in (p', Some <$> r)
  | OpClear => (clear_msg_queue p, Ret None)
  end.

Inductive reg_step : CentralSystem → CentralSystem → Prop :=
  | step_connect path cs : reg_step cs (on_connect path cs)
  | step_deliver now j action fields cs :
      reg_step cs (fst (deliver now j action fields cs))
  | step_wait_connection cs : reg_step cs (fst (wait_for_connection cs))
  | step_trap id op cs : reg_step cs (fst (with_chargepoint id (run_trap_op op) cs)).

Inductive reachable (addr : string) (port : Z) : CentralSystem → Prop :=
  | reach_serve : reachable addr port (serve addr port)
  | reach_step cs cs' : reachable addr port cs → reg_step cs cs' → reachable addr port cs'.

(** ** Lemmas *)

Definition ids (cs : CentralSystem) : list string := cp_id <$> connected_chargepoints cs.

(** The registry invariant: a set connection event implies a session. *)
Definition event_inv (cs : CentralSystem) : Prop :=
  conn_event cs = true → connected_chargepoints cs ≠ [].

Lemma insert_ne_nil {A} (l : list A) i (x : A) : <[i := x]> l ≠ [] ↔ l ≠ [].
Proof. rewrite <- !length_zero_iff_nil, length_insert. done. Qed.

Lemma ids_insert (l : list Proxy) i p p' :
  l !! i = Some p → cp_id p' = cp_id p → cp_id <$> <[i := p']> l = cp_id <$> l.
Proof.
  intros Hi Hid. rewrite list_fmap_insert, Hid. apply list_insert_id.
  by rewrite list_lookup_fmap, Hi.
Qed.

Lemma run_trap_op_id op p : cp_id (fst (run_trap_op op p)) = cp_id p.
Proof.
  destruct op as [msg|msg t|]; simpl; [by rewrite add_msg_trap_id| |done].
  pose proof (wait_msg_id msg t p). by destruct (wait_msg msg t p).
Qed.

Lemma find_chargepoint_lookup id cs i p :
  find_chargepoint id cs = Ret (i, p) → connected_chargepoints cs !! i = Some p.
Proof.
  unfold find_chargepoint. destruct (list_find _ _) as [[j q]|] eqn:Hf; [|done].
  intros [= <- <-]. by apply list_find_Some in Hf as [? _].
Qed.

(** Every transition keeps the server attributes, and keeps or extends the
    list of session ids. *)
Lemma reg_step_frame cs cs' :
  reg_step cs cs' →
  cs_thread cs' = cs_thread cs ∧ ∃ new, ids cs' = ids cs ++ new.
Proof.
  unfold ids. destruct 1 as [path cs|now j action fields cs|cs|id op cs].
  - split; [done|]. eexists. simpl. by rewrite fmap_app.
  - unfold deliver. destruct (connected_chargepoints cs !! j) as [p|] eqn:Hj; simpl;
      [|split; [done|exists []; by rewrite app_nil_r]].
    destruct (route now action fields p) as [p' r] eqn:Hr. simpl. split; [done|].
    exists []. rewrite app_nil_r. apply (ids_insert _ _ p); [done|].
    by rewrite <- (route_id now action fields p), Hr.
  - unfold wait_for_connection. destruct (_ && _); simpl;
      (split; [done|exists []; by rewrite app_nil_r]).
  - unfold with_chargepoint. destruct (find_chargepoint id cs) as [[i p]|e|] eqn:Hf; simpl;
      [|split; [done|exists []; by rewrite app_nil_r]..].
    destruct (run_trap_op op p) as [p' r] eqn:Hr. simpl. split; [done|].
    exists []. rewrite app_nil_r. apply (ids_insert _ _ p); [by eapply find_chargepoint_lookup|].
    by rewrite <- (run_trap_op_id op p), Hr.
Qed.

Lemma reg_step_event_inv cs cs' : reg_step cs cs' → event_inv cs → event_inv cs'.
Proof.
  unfold event_inv. destruct 1 as [path cs|now j action fields cs|cs|id op cs]; intros Hinv.
  - simpl. intros _. by destruct (connected_chargepoints cs).
  - unfold deliver. destruct (connected_chargepoints cs !! j); [|done].
    destruct (route _ _ _ _). simpl. rewrite insert_ne_nil. done.
  - unfold wait_for_connection. destruct (_ && _); [done|]. simpl. discriminate.
  - unfold with_chargepoint. destruct (find_chargepoint id cs) as [[i p]|e|]; [|done..].
    destruct (run_trap_op op p). simpl. rewrite insert_ne_nil. done.
Qed.

(** ** Theorems *)

Lemma reachable_event addr port cs : reachable addr port cs → event_inv cs.
Proof.
  induction 1 as [|cs cs' _ IH Hstep]; [by unfold event_inv|].
  by apply (reg_step_event_inv cs).
Qed.

(** C6: The registry invariant holds in every reachable state and every
    transition keeps it: whenever the connection event is set, at least
    one session is registered. *)
Theorem reachable_event_inv addr port cs :
  reachable addr port cs → event_inv cs ∧ ∀ cs', reg_step cs cs' → event_inv cs'.
Proof.
  intros Hr. split; [by eapply reachable_event|].
  intros cs' Hs. by eapply reg_step_event_inv, reachable_event.
Qed.

(** C5: In every reachable state [wait_for_connection] either blocks (no
    connection yet) or returns the id of the most recently registered
    session; it never reaches the [IndexError] of [[-1]] on an empty
    list. *)
Theorem wait_for_connection_reachable addr port cs :
  reachable addr port cs →
  (connected_chargepoints cs = [] ∧ snd (wait_for_connection cs) = Hang) ∨
  ∃ p, last (connected_chargepoints cs) = Some p ∧ snd (wait_for_connection cs) = Ret (cp_id p).
Proof.
  intros Hr. pose proof (reachable_event _ _ _ Hr) as Hinv. unfold event_inv in Hinv.
  unfold wait_for_connection, has_connections.
  destruct (connected_chargepoints cs) as [|p0 l] eqn:Hl.
  - left. split; [done|]. destruct (conn_event cs); [by exfalso; apply Hinv|done].
  - right. destruct (last (p0 :: l)) as [p|] eqn:Hlast.
    + exists p. split; [done|]. by rewrite bool_decide_true by (simpl; lia).
    + by apply last_None_nil in Hlast.
Qed.

(** C19: [is_active] raises [AttributeError] in every reachable state:
    [serve] stores the [None] that [Thread.start()] returns. *)
Theorem is_active_always_raises addr port cs :
  reachable addr port cs → is_active cs = Raise AttributeError.
Proof.
  intros Hr. unfold is_active.
  enough (cs_thread cs = None) as -> by done.
  induction Hr as [|cs cs' _ IH Hstep]; [done|].
  by rewrite (proj1 (reg_step_frame _ _ Hstep)).
Qed.

(** After a connection, [wait_for_connection] returns the id of the
    new session ([path.strip('/')]) and clears the event. *)
Theorem wait_for_connection_newest path cs :
  wait_for_connection (on_connect path cs) =
    (set_chargepoints cs (connected_chargepoints cs ++ [new_proxy (station_id_of_path path)]) false,
     Ret (station_id_of_path path)).
Proof.
  unfold wait_for_connection, has_connections, on_connect. simpl.
  rewrite bool_decide_true by (rewrite length_app; simpl; lia). simpl.
  by rewrite last_append.
Qed.

(** A station connecting on ["/" + id], with [id] non-empty and not
    starting or ending with a slash, is registered under [id]. *)
Theorem station_id_of_slash_path (id : string) (c1 c2 : ascii) :
  head (list_ascii_of_string id) = Some c1 → last (list_ascii_of_string id) = Some c2 →
  c1 ≠ "/"%char → c2 ≠ "/"%char →
  station_id_of_path (String "/" id) = id.
Proof.
  intros Hh Hl H1 H2. unfold station_id_of_path.
  replace (String "/" id) with (string_of_list_ascii (["/"%char] ++ list_ascii_of_string id ++ []))
    by (rewrite app_nil_r; simpl; by rewrite string_of_list_ascii_of_string).
  rewrite (py_strip_surrounded _ _ _ _ c1 c2); [by rewrite string_of_list_ascii_of_string|..];
    repeat constructor; set_solver.
Qed.

(** C16: [wait_for_connection] does not wait for a new connection once one
    exists: called again, it returns the same id at once (the spec asks
    that it block until a new station connects). *)
Theorem wait_for_connection_repeats cs :
  connected_chargepoints cs ≠ [] →
  wait_for_connection (fst (wait_for_connection cs)) = wait_for_connection cs ∧
  snd (wait_for_connection cs) ≠ Hang.
Proof.
  intros Hne. destruct cs as [l ev a pt th]. simpl in Hne.
  unfold wait_for_connection, has_connections, set_chargepoints. simpl.
  destruct l as [|p l]; [done|]. rewrite bool_decide_true by (simpl; lia). simpl.
  split; [done|]. by destruct (last (p :: l)).
Qed.

Lemma find_chargepoint_insert id cs i p p' ev :
  find_chargepoint id cs = Ret (i, p) → cp_id p' = cp_id p →
  find_chargepoint id (set_chargepoints cs (<[i := p']> (connected_chargepoints cs)) ev) = Ret (i, p').
Proof.
  unfold find_chargepoint. simpl. destruct (list_find _ _) as [[j q]|] eqn:Hf; [|done].
  intros [= -> ->] Hid. apply list_find_Some in Hf as (Hj & Hq & Hbefore).
  assert (list_find (λ q, cp_id q = id) (<[i := p']> (connected_chargepoints cs)) = Some (i, p'))
    as -> ; [|done].
  apply list_find_Some. split_and!.
  - apply list_lookup_insert_eq. by eapply lookup_lt_Some.
  - by rewrite Hid.
  - intros k y Hk Hlt. rewrite list_lookup_insert_ne in Hk by lia. by eapply Hbefore.
Qed.

Lemma find_chargepoint_on_connect path id cs i p :
  find_chargepoint id cs = Ret (i, p) → find_chargepoint id (on_connect path cs) = Ret (i, p).
Proof.
  unfold find_chargepoint, on_connect. simpl. destruct (list_find _ _) as [ip|] eqn:Hf; [|done].
  intros [= ->]. by rewrite (list_find_app_l _ _ _ i p Hf).
Qed.

Lemma find_chargepoint_lt id cs i p :
  find_chargepoint id cs = Ret (i, p) → (i < List.length (connected_chargepoints cs))%nat.
Proof. intros Hf. eapply lookup_lt_Some, find_chargepoint_lookup, Hf. Qed.

(** Delivering a notification whose name the target session does not trap
    leaves the session list as it was. *)
Lemma deliver_untrapped now j n cs q :
  connected_chargepoints cs !! j = Some q → Some (notification_name n) ∉ awaited q →
  connected_chargepoints (fst (deliver now j (notification_name n) (notification_fields n) cs))
    = connected_chargepoints cs.
Proof.
  intros Hj Hn. unfold deliver. rewrite Hj, route_trap_push. unfold trap_push.
  rewrite decide_False by done. simpl. by apply list_insert_id.
Qed.

(** C17: A station that reconnects under an id already registered gets a
    second session appended, and [find_chargepoint] keeps returning the
    first, older one (the spec asks for a [DuplicateSessionError]). *)
Theorem find_chargepoint_after_reconnect path cs i p :
  find_chargepoint (station_id_of_path path) cs = Ret (i, p) →
  find_chargepoint (station_id_of_path path) (on_connect path cs) = Ret (i, p) ∧
  List.length (connected_chargepoints (on_connect path cs)) =
    S (List.length (connected_chargepoints cs)).
Proof.
  intros Hf. split; [by apply find_chargepoint_on_connect|].
  simpl. rewrite length_app. simpl. lia.
Qed.

(** C1: After a station reconnects under a registered id, a trap armed by
    id lands on the stale session: the heartbeat the new connection
    delivers goes to the new, untrapped session and is dropped, and the
    wait by id times out. *)
Theorem reconnect_trap_misses now path cs i p (t : Q) :
  find_chargepoint (station_id_of_path path) cs = Ret (i, p) → msgq p = [] → (0 <= t)%Q →
  let id := station_id_of_path path in
  let cs1 := fst (with_chargepoint id (run_trap_op (OpAddTrap (Some "Heartbeat")))
                    (on_connect path cs)) in
  let cs2 := fst (deliver now (List.length (connected_chargepoints cs)) "Heartbeat" [] cs1) in
  snd (with_chargepoint id (run_trap_op (OpWait (Some "Heartbeat") (Some t))) cs2)
    = Raise (TimeoutException wait_timeout_msg).
Proof.
  intros Hf Hq Ht. simpl.
  pose proof (find_chargepoint_on_connect path _ _ _ _ Hf) as Hf1.
  pose proof (find_chargepoint_lt _ _ _ _ Hf) as Hi.
  unfold with_chargepoint at 2. rewrite Hf1. simpl.
  set (cs1 := set_chargepoints (on_connect path cs) _ true).
  assert (connected_chargepoints cs1 !! List.length (connected_chargepoints cs)
          = Some (new_proxy (station_id_of_path path))) as Hj.
  { simpl. rewrite list_lookup_insert_ne by lia.
    by rewrite lookup_app_r, Nat.sub_diag by lia. }
  pose proof (deliver_untrapped now _ HeartbeatPayload cs1 _ Hj) as Hd. simpl in Hd.
  specialize (Hd ltac:(set_solver)).
  assert (find_chargepoint (station_id_of_path path)
            (fst (deliver now (List.length (connected_chargepoints cs)) "Heartbeat" [] cs1))
          = Ret (i, add_msg_trap (Some "Heartbeat") p)) as Hf2.
  { unfold find_chargepoint. rewrite Hd.
    change (find_chargepoint (station_id_of_path path) cs1 = Ret (i, add_msg_trap (Some "Heartbeat") p)).
    apply (find_chargepoint_insert _ (on_connect path cs) i p); [done|apply add_msg_trap_id]. }
  unfold with_chargepoint. rewrite Hf2. simpl.
  unfold wait_msg. rewrite !add_msg_trap_msgq, Hq, queue_get_nonneg by done. done.
Qed.

(** The first-match scan and the comprehension find the same session. *)
Lemma list_find_filter_head {A} (P : A → Prop) `{∀ x, Decision (P x)} (l : list A) :
  snd <$> list_find P l = head (filter P l).
Proof.
  induction l as [|x l IH]; [done|]. rewrite filter_cons. simpl.
  case_decide; [done|]. rewrite <- IH. by destruct (list_find P l).
Qed.

(** Equivalence with the code as written: [find_chargepoint] returns
    the session the list comprehension's [cp[0]] returns and raises the
    same exception when there is none; the position it returns holds that
    session, and no session before it has the id. *)
Theorem find_chargepoint_equiv id cs :
  (snd <$> find_chargepoint id cs) = find_chargepoint_py id cs ∧
  ∀ i p, find_chargepoint id cs = Ret (i, p) →
    connected_chargepoints cs !! i = Some p ∧
    ∀ j q, (j < i)%nat → connected_chargepoints cs !! j = Some q → cp_id q ≠ id.
Proof.
  split.
  - unfold find_chargepoint, find_chargepoint_py.
    pose proof (list_find_filter_head (λ p, cp_id p = id) (connected_chargepoints cs)) as Hh.
    destruct (filter _ _) as [|x r]; simpl in *;
      destruct (list_find _ _) as [[j q]|]; simplify_eq/=; done.
  - unfold find_chargepoint. intros i p. destruct (list_find _ _) as [[j q]|] eqn:Hf; [|done].
    intros [= <- <-]. apply list_find_Some in Hf as (Hl & _ & Hbefore). split; [done|].
    intros j' q' Hj Hq. by apply (Hbefore j' q').
Qed.

(** ** Witnesses *)

Definition cs_served : CentralSystem := serve "0.0.0.0" 9000.
Definition cs_one : CentralSystem := on_connect "/CP1" cs_served.

Lemma cs_one_reachable : reachable "0.0.0.0" 9000 cs_one.
Proof. eapply reach_step; [apply reach_serve|apply step_connect]. Qed.

Lemma reachable_event_inv_witness : event_inv cs_one.
Proof. apply (reachable_event_inv "0.0.0.0" 9000). apply cs_one_reachable. Defined.

Lemma wait_for_connection_reachable_witness :
  (connected_chargepoints cs_one = [] ∧ snd (wait_for_connection cs_one) = Hang) ∨
  ∃ p, last (connected_chargepoints cs_one) = Some p ∧ snd (wait_for_connection cs_one) = Ret (cp_id p).
Proof. apply (wait_for_connection_reachable "0.0.0.0" 9000). apply cs_one_reachable. Defined.

Lemma is_active_always_raises_witness : is_active cs_one = Raise AttributeError.
Proof. apply (is_active_always_raises "0.0.0.0" 9000). apply cs_one_reachable. Defined.

Lemma station_id_of_slash_path_witness : station_id_of_path "/CP1" = "CP1".
Proof. apply (station_id_of_slash_path "CP1" "C"%char "1"%char); reflexivity || discriminate. Defined.

Lemma wait_for_connection_repeats_witness :
  wait_for_connection (fst (wait_for_connection cs_one)) = wait_for_connection cs_one.
Proof. apply wait_for_connection_repeats. discriminate. Defined.

Lemma find_chargepoint_after_reconnect_witness :
  find_chargepoint "CP1" (on_connect "/CP1" cs_one) = Ret (0%nat, new_proxy "CP1").
Proof. apply (find_chargepoint_after_reconnect "/CP1" cs_one). reflexivity. Defined.

Lemma reconnect_trap_misses_witness :
  snd (with_chargepoint "CP1" (run_trap_op (OpWait (Some "Heartbeat") (Some (1#10)%Q)))
         (fst (deliver now0 1 "Heartbeat" []
                 (fst (with_chargepoint "CP1" (run_trap_op (OpAddTrap (Some "Heartbeat")))
                         (on_connect "/CP1" cs_one))))))
  = Raise (TimeoutException wait_timeout_msg).
Proof.
  apply (reconnect_trap_misses now0 "/CP1" cs_one 0 (new_proxy "CP1")); [reflexivity..|by vm_compute].
Defined.

Lemma find_chargepoint_equiv_witness :
  (snd <$> find_chargepoint "CP1" cs_one) = find_chargepoint_py "CP1" cs_one ∧
  connected_chargepoints cs_one !! 0%nat = Some (new_proxy "CP1").
Proof.
  destruct (find_chargepoint_equiv "CP1" cs_one) as [H1 H2]. split; [exact H1|].
  apply (H2 0%nat (new_proxy "CP1")). vm_compute. reflexivity.
Defined.
