(* ===== verification/Keywords.v ===== *)
(** * The Robot Framework keyword library ([src/libs/centralsystem.py])

    The library object holds at most one [CentralSystem] ([self.cs], created
    by the first [start_CentralSystem]); every other keyword finds a proxy
    by id and delegates to it.  The library state is an
    [option CentralSystem]: [None] is an object with no [cs] attribute,
    on which every keyword but [start_CentralSystem] raises
    [AttributeError].

    - [start_CentralSystem] (8-14), [wait_for_ChargePoint_to_connect]
      (16-19), the trap keywords [clear_msg_queue], [wait_for_msg] and
      [add_msg_trap] (28-38) over [Registry.with_chargepoint], and the
      keywords that call out, [send_TriggerMessage] (21-23),
      [set_light_intensity] (60-62) and [get_light_intensity] (64-66): they
      return the index of the session whose communicator runs the
      operation, and the operation as a [prog].
    - [create_message] (40-44) and [set_message_field] (46-58) build a
      nested dictionary, modelled as [pyval] with insertion-ordered
      dictionaries ([dict_set] updates a key in place or appends it).
      [set_message_field] walks the dotted path as the code does, with its
      [fields.index(f) == len(fields) - 1] test, and keeps the partial
      updates it made before an exception.

    Theorems: [start_CentralSystem] is idempotent for one configuration
    and refuses another; a dotted path of at least two segments whose last
    segment is new is stored and read back; a one-segment path, or a path
    whose last segment repeats an earlier one, never stores the value; the
    outbound keywords after a reconnection talk to the old session; and
    every dictionary of a message keeps distinct keys under
    [set_message_field] ([pyval_wf]). *)

From S2P Require Import Prelude PyText Ocpp Bridge Proxy Registry.
From Stdlib Require Import QArith.

(** ** The library object *)

Definition Library := option CentralSystem.

Definition different_config_msg : string := "CentralSystem already running with different config".

Definition start_CentralSystem (addr : string) (port : Z) (lib : Library) : Library * outcome exn unit :=
  match lib with
  | None => (Some (serve addr port), Ret ())
  | Some cs =>
      if decide (cs_addr cs ≠ addr ∨ cs_port cs ≠ port) then
        (lib, Raise (PyException different_config_msg))
      else (lib, Ret ())
  end.

(** [self.cs.<method>(...)]: [AttributeError] before the first start. *)
Definition with_cs {A} (f : CentralSystem → CentralSystem * outcome exn A) (lib : Library)
    : Library * outcome exn A :=
  match lib with
  | None => (None, Raise AttributeError)
  | Some cs => let '(cs', r) := f cs in (Some cs', r)
  end.

Definition wait_for_ChargePoint_to_connect (lib : Library) : Library * outcome exn string :=
  with_cs wait_for_connection lib.

Definition kw_clear_msg_queue (charge_id : string) : Library → Library * outcome exn unit :=
  with_cs (with_chargepoint charge_id (λ p, (clear_msg_queue p, Ret ()))).

(** [chargepoint.wait_msg(msg)]: the default timeout of one second. *)
Definition kw_wait_for_msg (charge_id msg : string) : Library → Library * outcome exn Notification :=
  with_cs (with_chargepoint charge_id (wait_msg (Some msg) (Some 1%Q))).

Definition kw_add_msg_trap (charge_id msg : string) : Library → Library * outcome exn unit :=
  with_cs (with_chargepoint charge_id (λ p, (add_msg_trap (Some msg) p, Ret ()))).

(** The keywords that call out: the session found (its index in the
    registry) and the operation its communicator runs. *)
Definition kw_call {A} (charge_id : string) (op : prog A) (lib : Library) : outcome exn (nat * prog A) :=
  match lib with
  | None => Raise AttributeError
  | Some cs => (λ ip : nat * Proxy, (ip.1, op)) <$> find_chargepoint charge_id cs
  end.

(** [chargepoint.trigger_message(msg)]; the response is dropped. *)
Definition send_TriggerMessage (charge_id msg : string) : Library → outcome exn (nat * prog unit) :=
  kw_call charge_id (pbind (trigger_message msg) (λ _, Done (Ret ()))).

(** [chargepoint.light_intensity = int(intensity)] *)
Definition set_light_intensity (cp_id_ intensity : string) : Library → outcome exn (nat * prog unit) :=
  kw_call cp_id_ (match py_int intensity with
                  | Some v => light_intensity_set v
                  | None => Done (Raise ValueError)
                  end).

Definition get_light_intensity (cp_id_ : string) : Library → outcome exn (nat * prog Z) :=
  kw_call cp_id_ light_intensity_get.

(** ** Running an outbound keyword *)

(** The websocket of a session, as [__on_connect] binds it (CentralSystem.py
    18-20: the proxy gets the websocket, and its communicator calls the
    proxy's [call] on it): open, with the station behind it, or closed,
    when every call raises. *)
Inductive Conn (St : Type) := Open (st : St) | Closed.
Arguments Open {St} st.
Arguments Closed {St}.

#[export] Instance conn_comm `{Comm St} : Comm (Conn St) := λ c req,
  match c with
  | Open st => let '(st', o) := comm_call st req in (Open st', o)
  | Closed => (Closed, Raise (CallFailed "ConnectionClosed"))
  end.

(** [chargepoint.<op>(...)] after [find_chargepoint]: the operation runs on
    the communicator of the session found, the connection at that
    session's index in [conns] (one connection per session, in connection
    order; a missing one is [IndexError]). *)
Definition run_keyword `{Comm St} {A} (k : outcome exn (nat * prog A)) (conns : list (Conn St))
    : list (Conn St) * outcome exn A :=
  match k with
  | Ret (i, op) =>
      match conns !! i with
      | Some c => let '(_, c', r) := run op c in (<[i := c']> conns, r)
      | None => (conns, Raise IndexError)
      end
  | Raise e => (conns, Raise e)
  | Hang => (conns, Hang)
  end.

(** ** Message dictionaries *)

Inductive pyval :=
  | PStr (s : string)
  | PDict (d : list (string * pyval)).

Fixpoint dict_lookup (k : string) (d : list (string * pyval)) : option pyval :=
  match d with
  | [] => None
  | (k', v) :: r => if decide (k = k') then Some v else dict_lookup k r
  end.

(** [d[k] = v]: in place when [k] is a key, appended otherwise. *)
Fixpoint dict_set (k : string) (v : pyval) (d : list (string * pyval)) : list (string * pyval) :=
  match d with
  | [] => [(k, v)]
  | (k', v') :: r => if decide (k = k') then (k', v) :: r else (k', v') :: dict_set k v r
  end.

Definition create_message (msgType : string) : pyval :=
  PDict [("type", PStr msgType); ("payload", PDict [])].

(** [fields.index(f)] *)
Definition py_index (f : string) (fields : list string) : option nat :=
  fst <$> list_find (λ x, x = f) fields.

(** The loop [for f in fields[1:]] on the dictionary [tmp] points to; the
    updated [tmp] is written back by the caller, as the aliasing of [tmp]
    makes every assignment visible in [msg]. *)
Fixpoint set_loop (fields : list string) (value : pyval) (rest : list string) (tmp : pyval)
    : pyval * outcome exn unit :=
  match rest with
  | [] => (tmp, Ret ())
  | f :: rest' =>
      let is_last := bool_decide (py_index f fields = Some (List.length fields - 1)%nat) in
      match tmp with
      | PStr _ => (tmp, Raise (if is_last then TypeError else AttributeError))
      | PDict d =>
          if is_last then (PDict (dict_set f value d), Ret ())
          else
            let d1 := if decide (is_Some (dict_lookup f d)) then d else dict_set f (PDict []) d in
            let '(child', r) := set_loop fields value rest' (default (PDict []) (dict_lookup f d1)) in
            (PDict (dict_set f child' d1), r)
      end
  end.

Definition set_message_field (msg : pyval) (field : string) (value : pyval) : pyval * outcome exn unit :=
  let fields := py_split "." field in
  let f0 := default "" (head fields) in
  match msg with
  | PStr _ => (msg, Raise TypeError)
  | PDict m =>
      match dict_lookup "payload" m with
      | None => (msg, Raise KeyError)
      | Some (PStr _) => (msg, Raise AttributeError)
      | Some (PDict pl) =>
          let pl1 := if decide (is_Some (dict_lookup f0 pl)) then pl else dict_set f0 (PDict []) pl in
          let '(tmp', r) := set_loop fields value (tail fields) (default (PDict []) (dict_lookup f0 pl1)) in
          (PDict (dict_set "payload" (PDict (dict_set f0 tmp' pl1)) m), r)
      end
  end.

(** Reading a dotted path back: [msg["payload"][f0][f1]...]. *)
Fixpoint lookup_path (v : pyval) (path : list string) : option pyval :=
  match path with
  | [] => Some v
  | k :: r => match v with PDict d => dict_lookup k d ≫= λ c, lookup_path c r | PStr _ => None end
  end.

Definition payload_of (msg : pyval) : option pyval :=
  match msg with PDict m => dict_lookup "payload" m | PStr _ => None end.

(** ** Lemmas on the message helpers *)

(** The nested dictionary a fresh path builds around [v]. *)
Fixpoint nest (path : list string) (v : pyval) : pyval :=
  match path with
  | [] => v
  | k :: r => PDict [(k, nest r v)]
  end.

Definition no_dot (s : string) : Prop := "."%char ∉ list_ascii_of_string s.

(** Every dictionary inside a value has distinct keys, as a Python [dict]
    does: the invariant of the association-list representation. *)
Fixpoint pyval_wf (v : pyval) : Prop :=
  match v with
  | PStr _ => True
  | PDict d =>
      NoDup d.*1 ∧
      (fix all (d : list (string * pyval)) : Prop :=
         match d with [] => True | (_, c) :: r => pyval_wf c ∧ all r end) d
  end.

Lemma py_index_le (fields : list string) k f :
  fields !! k = Some f → ∃ j, py_index f fields = Some j ∧ (j ≤ k)%nat.
Proof.
  intros Hk. unfold py_index.
  destruct (list_find (λ x, x = f) fields) as [[j y]|] eqn:Hf.
  - apply list_find_Some in Hf as (Hj & -> & Hbefore). exists j. split; [done|].
    destruct (Nat.le_gt_cases j k) as [|Hlt]; [done|]. exfalso. by apply (Hbefore k f).
  - apply list_find_None in Hf. rewrite Forall_lookup in Hf. by exfalso; apply (Hf k f).
Qed.

Lemma py_index_last (pre : list string) l :
  l ∉ pre → py_index l (pre ++ [l]) = Some (List.length pre).
Proof.
  intros Hn. unfold py_index. rewrite list_find_app_r.
  - simpl. rewrite decide_True by done. simpl. f_equal; lia.
  - apply list_find_None, Forall_forall. intros x Hx ->. by apply Hn.
Qed.

(** A walk in which no segment passes the [index] test creates empty
    dictionaries all along and stores nothing. *)
Lemma set_loop_none fields value rest :
  (∀ f, f ∈ rest → py_index f fields ≠ Some (List.length fields - 1)%nat) →
  set_loop fields value rest (PDict []) = (nest rest (PDict []), Ret ()).
Proof.
  induction rest as [|f rest IH]; intros Hn; [done|].
  simpl. rewrite bool_decide_false by (apply Hn; set_solver). simpl.
  rewrite decide_True by done. simpl. rewrite IH by set_solver. simpl. by rewrite decide_True.
Qed.

(** A walk whose last segment alone passes the test stores the value. *)
Lemma set_loop_last fields value mid l :
  (∀ f, f ∈ mid → py_index f fields ≠ Some (List.length fields - 1)%nat) →
  py_index l fields = Some (List.length fields - 1)%nat →
  set_loop fields value (mid ++ [l]) (PDict []) = (nest (mid ++ [l]) value, Ret ()).
Proof.
  induction mid as [|f mid IH]; intros Hn Hl.
  - simpl. by rewrite bool_decide_true.
  - simpl. rewrite bool_decide_false by (apply Hn; set_solver). simpl.
    rewrite decide_True by done. simpl. rewrite IH by set_solver. simpl. by rewrite decide_True.
Qed.

Lemma lookup_path_nest path v : lookup_path (nest path v) path = Some v.
Proof. induction path as [|k r IH]; [done|]. simpl. by rewrite decide_True. Qed.

(** The first segment is followed by a walk over the others. *)
Lemma set_message_field_fresh t f0 rest value :
  Forall no_dot (f0 :: rest) →
  set_message_field (create_message t) (py_join "." (f0 :: rest)) value =
  (let '(tmp', r) := set_loop (f0 :: rest) value rest (PDict []) in
   (PDict [("type", PStr t); ("payload", PDict [(f0, tmp')])], r)).
Proof.
  intros Hnd. unfold set_message_field, py_split.
  rewrite py_split_join_aux by done. simpl. rewrite decide_True by done. simpl.
  destruct (set_loop (f0 :: rest) value rest (PDict [])). simpl. by rewrite decide_True.
Qed.

(** Indices in [f0 :: mid ++ [l]] of the segments before the last. *)
Lemma py_index_not_last f0 mid l f :
  f ∈ f0 :: mid →
  py_index f (f0 :: mid ++ [l]) ≠ Some (List.length (f0 :: mid ++ [l]) - 1)%nat.
Proof.
  intros Hf. apply list_elem_of_lookup in Hf as [k Hk].
  destruct (py_index_le (f0 :: mid ++ [l]) k f) as (j & Hj & Hle).
  { rewrite app_comm_cons. by apply lookup_app_l_Some. }
  apply lookup_lt_Some in Hk. rewrite Hj. simpl in *. rewrite length_app. simpl.
  intros [=]. lia.
Qed.

(** A websocket whose connection has closed: every call raises. *)

Lemma pyval_wf_dict d : pyval_wf (PDict d) ↔ NoDup d.*1 ∧ Forall (λ kv, pyval_wf kv.2) d.
Proof.
  simpl. apply and_iff_compat_l.
  induction d as [|[k c] d IH]; [split; [constructor|done]|].
  rewrite Forall_cons, IH. done.
Qed.

Lemma pyval_wf_empty : pyval_wf (PDict []).
Proof. split; [constructor|done]. Qed.

Lemma dict_lookup_elem k d c : dict_lookup k d = Some c → (k, c) ∈ d.
Proof.
  induction d as [|[k' c'] d IH]; simpl; [done|].
  case_decide; [intros [= ->]; subst; left|intros; right; auto].
Qed.

Lemma dict_set_keys k v d :
  (dict_set k v d).*1 = if decide (k ∈ d.*1) then d.*1 else d.*1 ++ [k].
Proof.
  induction d as [|[k' c'] d IH]; simpl; [done|].
  destruct (decide (k = k')) as [->|Hne].
  - rewrite !decide_True by set_solver. done.
  - rewrite fmap_cons, IH. simpl.
    destruct (decide (k ∈ d.*1)).
    + by rewrite decide_True by set_solver.
    + by rewrite decide_False by set_solver.
Qed.

Lemma dict_set_wf k v d :
  pyval_wf (PDict d) → pyval_wf v → pyval_wf (PDict (dict_set k v d)).
Proof.
  rewrite !pyval_wf_dict. intros [Hnd Hall] Hv. split.
  - rewrite dict_set_keys. case_decide as Hk; [done|].
    apply NoDup_app. split; [done|]. split; [set_solver|apply NoDup_singleton].
  - induction d as [|[k' c'] d IH]; simpl; [by repeat constructor|].
    apply Forall_cons in Hall as [Hc Hall]. apply NoDup_cons in Hnd as [_ Hnd].
    case_decide; constructor; auto.
Qed.

Lemma dict_lookup_wf k d c : pyval_wf (PDict d) → dict_lookup k d = Some c → pyval_wf c.
Proof.
  rewrite pyval_wf_dict. intros [_ Hall] Hl. apply dict_lookup_elem in Hl.
  rewrite Forall_forall in Hall. apply (Hall _ Hl).
Qed.

Lemma set_loop_wf fields value rest tmp :
  pyval_wf tmp → pyval_wf value → pyval_wf (set_loop fields value rest tmp).1.
Proof.
  revert tmp. induction rest as [|f rest IH]; intros tmp Ht Hv; [done|].
  destruct tmp as [s|d]; simpl; [done|].
  case_bool_decide; [by apply dict_set_wf|].
  set (d1 := if decide (is_Some (dict_lookup f d)) then d else dict_set f (PDict []) d).
  assert (Hd1 : pyval_wf (PDict d1)) by (subst d1; case_decide; [done|apply dict_set_wf; [done|apply pyval_wf_empty]]).
  destruct (set_loop _ _ _ _) as [child r] eqn:Hl. simpl. apply dict_set_wf; [done|].
  replace child with (set_loop fields value rest (default (PDict []) (dict_lookup f d1))).1
    by by rewrite Hl.
  apply IH; [|done]. destruct (dict_lookup f d1) eqn:Hf; simpl; [|apply pyval_wf_empty].
  by eapply dict_lookup_wf.
Qed.

Lemma create_message_wf t : pyval_wf (create_message t).
Proof. simpl. repeat split; try done; repeat constructor; set_solver. Qed.

(** ** Theorems *)

(** C26: [set_message_field] on a new message stores the value under a
    dotted path of at least two segments whose last segment does not occur
    earlier in the path, and reading the path back gives the value. *)
Theorem set_message_field_stores t f0 mid l value :
  Forall no_dot (f0 :: mid ++ [l]) → l ∉ f0 :: mid →
  let '(msg, r) := set_message_field (create_message t) (py_join "." (f0 :: mid ++ [l])) value in
  r = Ret () ∧ (payload_of msg ≫= λ pl, lookup_path pl (f0 :: mid ++ [l])) = Some value.
Proof.
  intros Hnd Hl. rewrite set_message_field_fresh by done.
  rewrite set_loop_last.
  - simpl. rewrite !decide_True by done. simpl. split; [done|]. apply lookup_path_nest.
  - intros f Hf. apply py_index_not_last. set_solver.
  - rewrite app_comm_cons, py_index_last by done. rewrite length_app. simpl. f_equal. lia.
Qed.

(** C27: [set_message_field] with a one-segment field never stores the
    value: the loop over [fields[1:]] is empty, so the key is set to an
    empty dictionary and the call returns normally. *)
Theorem set_message_field_single_segment t f value :
  no_dot f →
  set_message_field (create_message t) f value =
    (PDict [("type", PStr t); ("payload", PDict [(f, PDict [])])], Ret ()).
Proof.
  intros Hf.
  replace (set_message_field (create_message t) f value)
    with (set_message_field (create_message t) (py_join "." [f]) value) by done.
  rewrite set_message_field_fresh by (by constructor). done.
Qed.

(** C28: When the last segment of the path repeats an earlier one,
    [fields.index] never reports the last position: the value is not
    stored and the path ends in an empty dictionary instead. *)
Theorem set_message_field_repeated_last t f0 mid l value :
  Forall no_dot (f0 :: mid ++ [l]) → l ∈ f0 :: mid →
  let '(msg, r) := set_message_field (create_message t) (py_join "." (f0 :: mid ++ [l])) value in
  r = Ret () ∧ (payload_of msg ≫= λ pl, lookup_path pl (f0 :: mid ++ [l])) = Some (PDict []).
Proof.
  intros Hnd Hl. rewrite set_message_field_fresh by done.
  rewrite set_loop_none.
  - simpl. rewrite !decide_True by done. simpl. split; [done|]. apply lookup_path_nest.
  - intros f Hf. apply py_index_not_last. set_solver.
Qed.

(** C29: [start_CentralSystem] creates and serves the central system
    once; a later call with the same address and port does nothing, and
    one with another configuration raises, leaving the running system. *)
Theorem start_CentralSystem_once addr port cs :
  start_CentralSystem addr port None = (Some (serve addr port), Ret ()) ∧
  start_CentralSystem addr port (Some cs) =
    (Some cs, if decide (cs_addr cs = addr ∧ cs_port cs = port) then Ret ()
              else Raise (PyException different_config_msg)).
Proof.
  split; [done|]. unfold start_CentralSystem.
  destruct (decide (cs_addr cs = addr ∧ cs_port cs = port)) as [[-> ->]|Hne].
  - rewrite decide_False by naive_solver. done.
  - rewrite decide_True; [done|]. destruct (decide (cs_addr cs = addr)); naive_solver.
Qed.

(** C30: After a station reconnects under a registered id, its first
    connection closed, [get_light_intensity] runs on the first, stale
    session: the request goes to the closed connection, which raises, and
    the getter's [except Exception] returns [-1]; the live connection of
    the new session, whatever station is behind it, receives nothing. *)
Theorem get_light_intensity_after_reconnect `{Comm St} path cs i p (conns : list (Conn St)) (live : St) :
  find_chargepoint (station_id_of_path path) cs = Ret (i, p) →
  conns !! i = Some Closed →
  List.length conns = List.length (connected_chargepoints cs) →
  run_keyword (get_light_intensity (station_id_of_path path) (Some (on_connect path cs)))
    (conns ++ [Open live]) = (conns ++ [Open live], Ret (-1)%Z).
Proof.
  intros Hf Hi _. unfold get_light_intensity, kw_call.
  rewrite (find_chargepoint_on_connect _ _ _ i p Hf). simpl.
  rewrite (lookup_app_l_Some _ _ _ _ Hi). simpl.
  by rewrite list_insert_id by (by apply lookup_app_l_Some).
Qed.

(** [set_light_intensity] with a text [int()] rejects raises
    [ValueError] before any request is sent, whatever the station. *)
Theorem set_light_intensity_bad_text (cid text : string) cs i p :
  find_chargepoint cid cs = Ret (i, p) → py_int text = None →
  set_light_intensity cid text (Some cs) = Ret (i, Done (Raise ValueError)).
Proof. intros Hf Ht. unfold set_light_intensity, kw_call. by rewrite Ht, Hf. Qed.

(** [set_message_field] keeps a message a well-formed value: when the
    message and the value have distinct keys in every dictionary, so has
    the message it returns, whatever the path and whether the walk raised
    part way (the updates made before the exception are kept). *)
Theorem set_message_field_wf msg field value :
  pyval_wf msg → pyval_wf value → pyval_wf (set_message_field msg field value).1.
Proof.
  intros Hm Hv. destruct msg as [s|m]; [done|]. simpl.
  destruct (dict_lookup "payload" m) as [[s|pl]|] eqn:Hp; simpl; try done.
  assert (Hpl : pyval_wf (PDict pl)) by (by eapply dict_lookup_wf).
  set (f0 := default "" (head (py_split "." field))).
  set (pl1 := if decide (is_Some (dict_lookup f0 pl)) then pl else dict_set f0 (PDict []) pl).
  assert (Hpl1 : pyval_wf (PDict pl1)) by (subst pl1; case_decide; [done|apply dict_set_wf; [done|apply pyval_wf_empty]]).
  destruct (set_loop _ _ _ _) as [tmp' r] eqn:Hl. simpl.
  apply dict_set_wf; [done|]. apply dict_set_wf; [done|].
  replace tmp' with (set_loop (py_split "." field) value (tail (py_split "." field))
                       (default (PDict []) (dict_lookup f0 pl1))).1 by by rewrite Hl.
  apply set_loop_wf; [|done]. destruct (dict_lookup f0 pl1) eqn:Hf; simpl; [|apply pyval_wf_empty].
  by eapply dict_lookup_wf.
Qed.

(** ** Witnesses *)

Lemma path_abc_no_dot : Forall no_dot ["a"; "b"; "c"].
Proof. repeat constructor; unfold no_dot; set_solver. Qed.

Lemma set_message_field_stores_witness :
  let '(msg, r) := set_message_field (create_message "BootNotification") (py_join "." ["a"; "b"; "c"])
                     (PStr "x") in
  r = Ret () ∧ (payload_of msg ≫= λ pl, lookup_path pl ["a"; "b"; "c"]) = Some (PStr "x").
Proof. apply (set_message_field_stores _ "a" ["b"] "c"); [apply path_abc_no_dot|set_solver]. Defined.

Lemma set_message_field_single_segment_witness :
  set_message_field (create_message "Heartbeat") "speed" (PStr "10") =
    (PDict [("type", PStr "Heartbeat"); ("payload", PDict [("speed", PDict [])])], Ret ()).
Proof. apply set_message_field_single_segment. unfold no_dot. set_solver. Defined.

Lemma set_message_field_repeated_last_witness :
  let '(msg, r) := set_message_field (create_message "BootNotification") (py_join "." ["a"; "b"; "a"])
                     (PStr "x") in
  r = Ret () ∧ (payload_of msg ≫= λ pl, lookup_path pl ["a"; "b"; "a"]) = Some (PDict []).
Proof.
  apply (set_message_field_repeated_last _ "a" ["b"] "a");
    [repeat constructor; unfold no_dot; set_solver|set_solver].
Defined.

Lemma get_light_intensity_after_reconnect_witness :
  run_keyword (get_light_intensity "CP1" (Some (on_connect "/CP1" cs_one)))
    ([Closed; Open (<["LightIntensity" := "40"]> ∅ : gmap string string)]) =
    ([Closed; Open (<["LightIntensity" := "40"]> ∅ : gmap string string)], Ret (-1)%Z).
Proof.
  apply (get_light_intensity_after_reconnect "/CP1" cs_one 0 (new_proxy "CP1") [Closed]);
    reflexivity.
Defined.

Lemma set_light_intensity_bad_text_witness :
  set_light_intensity "CP1" "1__0" (Some cs_one) = Ret (0%nat, Done (Raise ValueError)).
Proof. apply (set_light_intensity_bad_text _ _ _ 0 (new_proxy "CP1")); reflexivity. Defined.

Lemma set_message_field_wf_witness :
  pyval_wf (fst (set_message_field (create_message "BootNotification") "a.b" (PStr "x"))).
Proof. apply set_message_field_wf; [apply create_message_wf|done]. Defined.
