(* ===== verification/Concurrent.v ===== *)
(** * The trap queue under interleaving: event loop and caller threads

    The queue [self.__msgq] and the set [self.__awaited_msgs] of a
    [ChargePointProxy] are shared between the event-loop thread, which runs
    the notification handlers (ChargePointProxy.py lines 42-43, 56-57,
    68-69), and the caller threads of the Robot keywords, which run
    [add_msg_trap] (145-153), [wait_msg] (155-173) and [clear_msg_queue]
    (175-179).  [Proxy] executes each of these atomically; here they are
    split at the points where another thread can run in between:

    - a handler tests its trap ([Handle]), evaluates [self.__msgq]
      ([LoadQueue]) and puts the payload on the queue object it loaded
      ([PutQueue]);
    - [wait_msg] adds its trap on entry ([CallWait]), evaluates
      [self.__msgq] and enters [get] ([GetStep]), takes the head of that
      queue object ([Dequeue]) or times out ([TimeoutStep]), then removes
      its trap ([RemoveStep]), raising [KeyError] if another thread already
      did;
    - [clear_msg_queue] allocates a new [queue.Queue()] and makes
      [self.__msgq] point at it ([ClearStep]); a thread already inside
      [get] keeps waiting on the old object.

    Queue objects live in a store (a list indexed by allocation order);
    [Queue.put], [Queue.get] and the set methods are atomic, as they are in
    CPython ([queue.Queue] takes its mutex, [set.add]/[set.remove] run
    under the interpreter lock).  Time is not modelled: a [get] with a
    finite timeout may time out whenever its queue is empty.

    Theorems: every step preserves the well-formedness of the store; two
    waiters on one name can both dequeue and the second then raises
    [KeyError], losing a notification (the sequential model never raises
    it); a waiter blocked without timeout on a queue that
    [clear_msg_queue] replaced is blocked for ever, whatever happens next;
    with a single caller thread no interleaving with the handlers reaches
    that [KeyError] (an invariant by induction on the steps); and each
    operation of the sequential [Proxy] model is a run of this model with
    no interleaving (refinement). *)

From S2P Require Import Prelude Ocpp Proxy.
From Stdlib Require Import QArith.

(** ** State *)

(** Where a caller thread is in the trap operations. *)
Inductive Thread :=
  | Idle
  | Getting (msg : option string) (timeout : option Q)
  | Blocked (msg : option string) (q : nat) (timeout : option Q)
  | Received (msg : option string) (recv : Notification)
  | Returned (o : outcome exn Notification).

(** Where the event loop is in a handler's [if ...: self.__msgq.put(...)]. *)
Inductive Loop :=
  | LIdle
  | LChecked (n : Notification)
  | LLoaded (q : nat) (n : Notification).

Record World := mkWorld {
  w_id : string;
  store : list (list Notification);
  cur : nat;
  aw : gset (option string);
  threads : list Thread;
  loop : Loop
}.

Definition with_store (w : World) (s : list (list Notification)) : World :=
  mkWorld (w_id w) s (cur w) (aw w) (threads w) (loop w).
Definition with_aw (w : World) (a : gset (option string)) : World :=
  mkWorld (w_id w) (store w) (cur w) a (threads w) (loop w).
Definition with_loop (w : World) (l : Loop) : World :=
  mkWorld (w_id w) (store w) (cur w) (aw w) (threads w) l.
Definition set_thread (w : World) (tid : nat) (th : Thread) : World :=
  mkWorld (w_id w) (store w) (cur w) (aw w) (<[tid := th]> (threads w)) (loop w).

(** A proxy just created by [__on_connect], with [n] caller threads. *)
Definition init (id : string) (n : nat) : World :=
  mkWorld id [[]] 0 ∅ (replicate n Idle) LIdle.

(** A thread that is not inside a trap operation can call one. *)
Definition free (th : Thread) : bool :=
  match th with Idle | Returned _ => true | _ => false end.

(** [if msg not in self.__awaited_msgs: self.__awaited_msgs.add(msg)] *)
Definition trap_in (msg : option string) (s : gset (option string)) : gset (option string) :=
  if decide (msg ∈ s) then s else {[msg]} ∪ s.

(** ** Steps *)

Inductive Action :=
  | Handle (n : Notification)
  | LoadQueue
  | PutQueue
  | CallWait (tid : nat) (msg : option string) (timeout : option Q)
  | GetStep (tid : nat)
  | Dequeue (tid : nat)
  | TimeoutStep (tid : nat)
  | RemoveStep (tid : nat)
  | ClearStep (tid : nat)
  | AddTrapStep (tid : nat) (msg : option string).

(** The caller step [f] of thread [tid], when its state allows it. *)
Definition on_thread (w : World) (tid : nat) (f : Thread → option World) : option World :=
  match threads w !! tid with Some th => f th | None => None end.

Definition step (a : Action) (w : World) : option World :=
  match a with
  | Handle n =>
      match loop w with
      | LIdle =>
          Some (if decide (Some (notification_name n) ∈ aw w) then with_loop w (LChecked n) else w)
      | _ => None
      end
  | LoadQueue =>
      match loop w with LChecked n => Some (with_loop w (LLoaded (cur w) n)) | _ => None end
  | PutQueue =>
      match loop w with
      | LLoaded q n =>
          match store w !! q with
          | Some xs => Some (with_loop (with_store w (<[q := xs ++ [n]]> (store w))) LIdle)
          | None => None
          end
      | _ => None
      end
  | CallWait tid msg t =>
      on_thread w tid (λ th,
        if free th then Some (set_thread (with_aw w (trap_in msg (aw w))) tid (Getting msg t))
        else None)
  | GetStep tid =>
      on_thread w tid (λ th,
        match th with
        | Getting msg (Some t) =>
            if Qlt_le_dec t 0 then Some (set_thread w tid (Returned (Raise ValueError)))
            else Some (set_thread w tid (Blocked msg (cur w) (Some t)))
        | Getting msg None => Some (set_thread w tid (Blocked msg (cur w) None))
        | _ => None
        end)
  | Dequeue tid =>
      on_thread w tid (λ th,
        match th with
        | Blocked msg q _ =>
            match store w !! q with
            | Some (n :: r) => Some (set_thread (with_store w (<[q := r]> (store w))) tid (Received msg n))
            | _ => None
            end
        | _ => None
        end)
  | TimeoutStep tid =>
      on_thread w tid (λ th,
        match th with
        | Blocked msg q (Some _) =>
            match store w !! q with
            | Some [] => Some (set_thread w tid (Returned (Raise (TimeoutException wait_timeout_msg))))
            | _ => None
            end
        | _ => None
        end)
  | RemoveStep tid =>
      on_thread w tid (λ th,
        match th with
        | Received msg n =>
            if decide (msg ∈ aw w) then Some (set_thread (with_aw w (aw w ∖ {[msg]})) tid (Returned (Ret n)))
            else Some (set_thread w tid (Returned (Raise KeyError)))
        | _ => None
        end)
  | ClearStep tid =>
      on_thread w tid (λ th,
        if free th then
          Some (mkWorld (w_id w) (store w ++ [[]]) (List.length (store w)) (aw w) (threads w) (loop w))
        else None)
  | AddTrapStep tid msg =>
      on_thread w tid (λ th, if free th then Some (with_aw w (trap_in msg (aw w))) else None)
  end.

Definition cstep (w w' : World) : Prop := ∃ a, step a w = Some w'.

Fixpoint run_actions (acts : list Action) (w : World) : option World :=
  match acts with
  | [] => Some w
  | a :: r => match step a w with Some w' => run_actions r w' | None => None end
  end.

(** Every queue object a thread or the loop refers to exists, and so does
    the current one. *)
Definition thread_wf (len : nat) (th : Thread) : Prop :=
  match th with Blocked _ q _ => (q < len)%nat | _ => True end.
Definition loop_wf (len : nat) (l : Loop) : Prop :=
  match l with LLoaded q _ => (q < len)%nat | _ => True end.
Definition wf (w : World) : Prop :=
  (cur w < List.length (store w))%nat ∧ Forall (thread_wf (List.length (store w))) (threads w) ∧
  loop_wf (List.length (store w)) (loop w).

(** The proxy the sequential model sees: the current queue object. *)
Definition proj (w : World) : Proxy := mkProxy (w_id w) (store w !!! cur w) (aw w).

(** Thread [t] is inside [get] without timeout on queue object [q], which
    is empty, is no longer [self.__msgq], and is not about to be fed by a
    handler that loaded it before the switch. *)
Definition starved (t : nat) (msg : option string) (q : nat) (w : World) : Prop :=
  threads w !! t = Some (Blocked msg q None) ∧ store w !! q = Some [] ∧ q ≠ cur w ∧
  ∀ n, loop w ≠ LLoaded q n.

(** ** The sequential model as a specification *)

(** One operation of [Proxy], run atomically: a notification handled by
    the loop, or a trap operation of a caller. *)
Inductive Op :=
  | OpNotify (n : Notification)
  | OpWait (msg : option string) (timeout : option Q)
  | OpClear
  | OpAddTrap (msg : option string).

(** Its effect in [Proxy] and, for [wait_msg], its outcome. *)
Definition seq_apply (op : Op) (p : Proxy) : Proxy * option (outcome exn Notification) :=
  match op with
  | OpNotify n => (trap_push (notification_name n) n p, None)
  | OpWait msg t => let '(p', o) := wait_msg msg t p in (p', Some o)
  | OpClear => (clear_msg_queue p, None)
  | OpAddTrap msg => (add_msg_trap msg p, None)
  end.

(** What thread [tid] shows after the operation: an operation without a
    result leaves it as it was; [wait_msg] has returned or raised its
    outcome, or, for [Hang], is inside [get] without a timeout. *)
Definition reports (before after : option Thread) (o : option (outcome exn Notification)) : Prop :=
  match o with
  | None => after = before
  | Some Hang => ∃ msg q, after = Some (Blocked msg q None)
  | Some o' => after = Some (Returned o')
  end.

(** [w'] is reached from [w] by running an operation with result [r]
    without interleaving: the loop is back at rest, the proxy seen is the
    sequential one, the other threads are untouched and [tid] reports [r]. *)
Definition sim_by (w : World) (tid : nat) (r : Proxy * option (outcome exn Notification))
    (w' : World) : Prop :=
  rtc cstep w w' ∧ loop w' = LIdle ∧ proj w' = r.1 ∧
  (∀ t, t ≠ tid → threads w' !! t = threads w !! t) ∧
  reports (threads w !! tid) (threads w' !! tid) r.2.

(** ** The store stays well formed *)

Lemma run_actions_rtc acts w w' : run_actions acts w = Some w' → rtc cstep w w'.
Proof.
  revert w. induction acts as [|a acts IH]; intros w H; simpl in H.
  - injection H as ->. apply rtc_refl.
  - destruct (step a w) as [w1|] eqn:Hs; [|done]. eapply rtc_l; [by exists a|]. by apply IH.
Qed.

Lemma thread_wf_mono len len' th : (len ≤ len')%nat → thread_wf len th → thread_wf len' th.
Proof. destruct th; simpl; lia. Qed.

Lemma loop_wf_mono len len' l : (len ≤ len')%nat → loop_wf len l → loop_wf len' l.
Proof. destruct l; simpl; lia. Qed.

Lemma step_wf a w w' : step a w = Some w' → wf w → wf w'.
Proof.
  intros Hs (Hc & Hth & Hl). destruct w as [id st c a0 ths l].
  unfold step, on_thread in Hs; simpl in *.
  destruct a; repeat (case_match || case_decide); simplify_eq;
    unfold wf; simpl; rewrite ?length_insert, ?length_app; simpl;
    repeat split; try done; try lia;
    try (apply Forall_insert; [done|simpl; lia]).
  - eapply Forall_impl; [done|]. intros th. apply thread_wf_mono. lia.
  - eapply loop_wf_mono; [|done]. lia.
Qed.

Lemma rtc_wf w w' : rtc cstep w w' → wf w → wf w'.
Proof. induction 1 as [|w1 w2 w3 [a Hs] _ IH]; [done|]. intros Hw. apply IH. by eapply step_wf. Qed.

Lemma init_wf id n : wf (init id n).
Proof. split; [simpl; lia|]. split; [|done]. apply Forall_replicate. done. Qed.

(** ** A waiter on a replaced queue *)

Lemma step_starved a w w' t msg q :
  wf w → starved t msg q w → step a w = Some w' → starved t msg q w'.
Proof.
  intros (Hc & Hth & Hl) (Ht & Hq & Hne & Hlq) Hs.
  assert (Hlt : (q < List.length (store w))%nat)
    by (by apply (Forall_lookup_1 _ _ _ _ Hth Ht)).
  destruct w as [id st c a0 ths l]. unfold step, on_thread in Hs; simpl in *.
  destruct a as [n| | |tid m tm|tid|tid|tid|tid|tid|tid m];
    repeat (case_match || case_decide); simplify_eq; unfold starved; simpl;
    try (destruct (decide (tid = t)); [subst; simplify_eq|]);
    rewrite ?list_lookup_insert_ne by done.
  all: try (match goal with |- context [<[?q0 := _]> _ !! ?q] =>
              assert (q0 ≠ q) by (intros ->; first [congruence | by eapply Hlq]);
              rewrite list_lookup_insert_ne by done end).
  all: rewrite ?lookup_app_l by done; repeat split; try done; try lia; congruence.
Qed.

(** C33: [clear_msg_queue] starves a waiter: once a thread waiting without
    timeout is inside [get] on an empty queue object that is no longer
    [self.__msgq] (and no handler is about to put on it), it stays blocked
    on that empty object in every later state, whatever the event loop
    and the other threads do, although matching notifications keep being
    queued on the new object. *)
Theorem clear_msg_queue_starves_waiter w w' t msg q :
  wf w → starved t msg q w → rtc cstep w w' → starved t msg q w'.
Proof.
  intros Hwf Hst Hr. revert Hwf Hst.
  induction Hr as [|w1 w2 w3 [a Hs] _ IH]; intros Hwf Hst; [done|].
  apply IH; [by eapply step_wf|by eapply step_starved].
Qed.

(** C32: Two callers of [wait_msg] on the same name can both take a
    notification off the queue: the first removes the trap, the second's
    [self.__awaited_msgs.remove(msg)] raises [KeyError], and the
    notification it dequeued is returned by no one.  The sequential model
    never raises [KeyError] (see [Proxy.wait_msg_no_key_error]). *)
Theorem concurrent_wait_key_error (id : string) :
  ∃ w, rtc cstep (init id 2) w ∧
       threads w = [Returned (Ret HeartbeatPayload); Returned (Raise KeyError)] ∧
       store w = [[]] ∧ aw w = ∅.
Proof.
  eexists. split.
  - apply (run_actions_rtc
             [CallWait 0 (Some "Heartbeat") None; CallWait 1 (Some "Heartbeat") None;
              GetStep 0; GetStep 1;
              Handle HeartbeatPayload; LoadQueue; PutQueue;
              Handle HeartbeatPayload; LoadQueue; PutQueue;
              Dequeue 0; Dequeue 1; RemoveStep 0; RemoveStep 1]).
    vm_compute. reflexivity.
  - vm_compute. auto.
Qed.

(** ** One caller thread *)

(** The name a thread inside [wait_msg] has trapped. *)
Definition waiting_on (th : Thread) : option (option string) :=
  match th with
  | Getting msg _ | Blocked msg _ _ | Received msg _ => Some msg
  | _ => None
  end.

(** With a single caller thread: the name it waits on is trapped, and it
    has not raised [KeyError]. *)
Definition single_inv (w : World) : Prop :=
  List.length (threads w) = 1%nat ∧
  ∀ t th, threads w !! t = Some th →
    (∀ msg, waiting_on th = Some msg → msg ∈ aw w) ∧ th ≠ Returned (Raise KeyError).

Lemma single_inv_init id : single_inv (init id 1).
Proof.
  split; [done|]. intros t th Ht. apply lookup_replicate in Ht as [-> _].
  split; [done|discriminate].
Qed.

Lemma trap_in_elem msg a : msg ∈ trap_in msg a.
Proof. unfold trap_in. case_decide; set_solver. Qed.

Lemma trap_in_subseteq msg a : a ⊆ trap_in msg a.
Proof. unfold trap_in. case_decide; set_solver. Qed.

(** In a list of one thread, the thread updated is the only one. *)
Lemma single_insert (ths : list Thread) tid th th' t th0 :
  List.length ths = 1%nat → ths !! tid = Some th → <[tid := th']> ths !! t = Some th0 → th0 = th'.
Proof.
  intros Hlen Htid Ht. pose proof (lookup_lt_Some _ _ _ Htid).
  pose proof (lookup_lt_Some _ _ _ Ht) as Hlt. rewrite length_insert in Hlt.
  assert (t = tid) as -> by lia. rewrite list_lookup_insert_eq in Ht by lia. congruence.
Qed.

Lemma step_single_inv a w w' : step a w = Some w' → single_inv w → single_inv w'.
Proof.
  intros Hs [Hlen Hinv]. destruct w as [id st c a0 ths l].
  unfold step, on_thread in Hs; simpl in *.
  destruct a as [n| | |tid m tm|tid|tid|tid|tid|tid|tid m];
    repeat (case_match || case_decide); simplify_eq; split; simpl; rewrite ?length_insert; try done;
    intros t0 th0 Ht0.
  (* the steps that leave the caller and the traps as they are *)
  all: try (by apply (Hinv t0 th0 Ht0)).
  (* [add_msg_trap] only adds *)
  all: try (destruct (Hinv t0 th0 Ht0) as [Hw Hk]; split; [|done];
            intros msg Hm; by apply trap_in_subseteq, Hw).
  (* the caller's own step *)
  all: match goal with
       | Hth : ?L !! ?tid = Some _ |- _ =>
           pose proof (single_insert _ _ _ _ _ _ Hlen Hth Ht0) as ->;
           pose proof (Hinv _ _ Hth) as [Hw _]
       end.
  (* [remove] of a name still trapped: the [KeyError] branch is dead *)
  all: try (exfalso; match goal with Hn : _ ∉ _ |- _ => by apply Hn, Hw end).
  all: split; [intros m0 Hm; simpl in Hm; try discriminate; injection Hm as <-;
                first [apply trap_in_elem | by apply Hw] | discriminate].
Qed.

Lemma rtc_single_inv w w' : rtc cstep w w' → single_inv w → single_inv w'.
Proof. induction 1 as [|w1 w2 w3 [a Hs] _ IH]; [done|]. intros Hw. apply IH. by eapply step_single_inv. Qed.

(** C24: With a single caller thread, [wait_msg] never raises [KeyError],
    whatever the interleaving with the event loop's handlers: the trap it
    removes is still in [self.__awaited_msgs], because only a caller
    removes a trap and the caller is inside its own [wait_msg].  The
    [KeyError] of [concurrent_wait_key_error] needs two callers. *)
Theorem single_caller_no_key_error id w :
  rtc cstep (init id 1) w → ∀ t, threads w !! t ≠ Some (Returned (Raise KeyError)).
Proof.
  intros Hr t Ht. destruct (rtc_single_inv _ _ Hr (single_inv_init id)) as [_ Hinv].
  by apply (Hinv t _ Ht).
Qed.

(** ** Refinement of the sequential model *)

Section step_equations.
Context (w : World) (tid : nat).

Lemma step_CallWait th msg t :
  threads w !! tid = Some th → free th = true →
  step (CallWait tid msg t) w = Some (set_thread (with_aw w (trap_in msg (aw w))) tid (Getting msg t)).
Proof. intros H Hf. unfold step, on_thread. by rewrite H, Hf. Qed.

Lemma step_GetStep_neg msg t :
  threads w !! tid = Some (Getting msg (Some t)) → (t < 0)%Q →
  step (GetStep tid) w = Some (set_thread w tid (Returned (Raise ValueError))).
Proof.
  intros H Ht. unfold step, on_thread. rewrite H.
  destruct (Qlt_le_dec t 0) as [|Hle]; [done|]. exfalso. by apply (Qlt_not_le _ _ Ht).
Qed.

Lemma step_GetStep_block msg t :
  threads w !! tid = Some (Getting msg t) → (∀ t', t = Some t' → 0 <= t')%Q →
  step (GetStep tid) w = Some (set_thread w tid (Blocked msg (cur w) t)).
Proof.
  intros H Ht. unfold step, on_thread. rewrite H. destruct t as [t|]; [|done].
  destruct (Qlt_le_dec t 0) as [Hlt|]; [|done].
  exfalso. by apply (Qlt_not_le _ _ Hlt), Ht.
Qed.

Lemma step_Dequeue msg q t n r :
  threads w !! tid = Some (Blocked msg q t) → store w !! q = Some (n :: r) →
  step (Dequeue tid) w = Some (set_thread (with_store w (<[q := r]> (store w))) tid (Received msg n)).
Proof. intros H Hq. unfold step, on_thread. by rewrite H, Hq. Qed.

Lemma step_Timeout msg q t :
  threads w !! tid = Some (Blocked msg q (Some t)) → store w !! q = Some [] →
  step (TimeoutStep tid) w = Some (set_thread w tid (Returned (Raise (TimeoutException wait_timeout_msg)))).
Proof. intros H Hq. unfold step, on_thread. by rewrite H, Hq. Qed.

Lemma step_Remove_in msg n :
  threads w !! tid = Some (Received msg n) → msg ∈ aw w →
  step (RemoveStep tid) w = Some (set_thread (with_aw w (aw w ∖ {[msg]})) tid (Returned (Ret n))).
Proof. intros H Hin. unfold step, on_thread. rewrite H. by rewrite decide_True. Qed.
End step_equations.

Lemma set_thread_same w tid th th' :
  threads w !! tid = Some th → threads (set_thread w tid th') !! tid = Some th'.
Proof. intros H. apply list_lookup_insert_eq. eauto using lookup_lt_Some. Qed.

Lemma set_thread_other w tid th' t :
  t ≠ tid → threads (set_thread w tid th') !! t = threads w !! t.
Proof. intros Hne. apply list_lookup_insert_ne. congruence. Qed.

Lemma cstep_of a w w' : step a w = Some w' → cstep w w'.
Proof. by exists a. Qed.

Lemma add_msg_trap_trap_in msg id q a :
  add_msg_trap msg (mkProxy id q a) = mkProxy id q (trap_in msg a).
Proof. unfold add_msg_trap, trap_in. simpl. by case_decide. Qed.

(** The thread the step is about is at its last [set_thread]. *)
Ltac thread_here :=
  lazymatch goal with
  | |- threads (set_thread _ _ _) !! _ = Some _ => eapply set_thread_same; thread_here
  | |- threads (with_store ?Y _) !! _ = Some _ => change (threads (with_store Y _)) with (threads Y); thread_here
  | |- threads (with_aw ?Y _) !! _ = Some _ => change (threads (with_aw Y _)) with (threads Y); thread_here
  | |- threads _ !! _ = Some _ => eassumption
  end.

(** The thread's state after a run is its last update. *)
Ltac last_thread := apply list_lookup_insert_eq; rewrite ?length_insert; eauto using lookup_lt_Some.

Ltac run_step a lem :=
  eapply rtc_l; [apply (cstep_of a); eapply lem; try thread_here|].

Section simulation.
Context (w : World) (tid : nat) (th : Thread).
Hypotheses (Hwf : wf w) (Hl : loop w = LIdle) (Ht : threads w !! tid = Some th) (Hf : free th = true).

Lemma sim_notify n : ∃ w', sim_by w tid (seq_apply (OpNotify n) (proj w)) w'.
Proof.
  destruct Hwf as (Hc & _ & _). destruct w as [id st c a ths l]; simpl in *; subst l.
  unfold seq_apply, trap_push, proj; simpl. case_decide as Hin.
  - exists (mkWorld id (<[c := st !!! c ++ [n]]> st) c a ths LIdle).
    split; [|split; [done|split; [|done]]].
    + eapply rtc_l; [apply (cstep_of (Handle n)); simpl; by rewrite decide_True|].
      eapply rtc_l; [apply (cstep_of LoadQueue); reflexivity|].
      eapply rtc_once, (cstep_of PutQueue). simpl.
      by rewrite (list_lookup_lookup_total_lt st c).
    + unfold proj, set_msgq. simpl. by rewrite list_lookup_total_insert_eq.
  - exists (mkWorld id st c a ths LIdle). split; [|done].
    apply rtc_once, (cstep_of (Handle n)). simpl. by rewrite decide_False.
Qed.

Lemma sim_clear : ∃ w', sim_by w tid (seq_apply OpClear (proj w)) w'.
Proof.
  destruct w as [id st c a ths l]; simpl in *; subst l.
  exists (mkWorld id (st ++ [[]]) (List.length st) a ths LIdle). split.
  - apply rtc_once, (cstep_of (ClearStep tid)). unfold step, on_thread. simpl. by rewrite Ht, Hf.
  - split; [done|]. split; [|done]. unfold proj, clear_msg_queue, set_msgq. simpl.
    rewrite lookup_total_app_r by lia. by rewrite Nat.sub_diag.
Qed.

Lemma sim_add_trap msg : ∃ w', sim_by w tid (seq_apply (OpAddTrap msg) (proj w)) w'.
Proof.
  destruct w as [id st c a ths l]; simpl in *; subst l.
  exists (mkWorld id st c (trap_in msg a) ths LIdle). split.
  - apply rtc_once, (cstep_of (AddTrapStep tid msg)). unfold step, on_thread. simpl. by rewrite Ht, Hf.
  - split; [done|]. split; [|done]. unfold proj. simpl. by rewrite add_msg_trap_trap_in.
Qed.
Lemma queue_get_ready q t :
  (∀ t', t = Some t' → (0 <= t')%Q) →
  queue_get q t = match q with n :: r => Ret (n, r) | [] => match t with Some _ => Raise QueueEmpty | None => Hang end end.
Proof. intros Ht'. destruct t as [t|]; [by rewrite queue_get_nonneg by auto|done]. Qed.

(** The four steps of [wait_msg] on a current queue that holds a
    message. *)
Lemma sim_wait_got msg t n r :
  (∀ t', t = Some t' → (0 <= t')%Q) → store w !!! cur w = n :: r →
  ∃ w', sim_by w tid (seq_apply (OpWait msg t) (proj w)) w'.
Proof.
  intros Ht' Hq. destruct Hwf as (Hc & _ & _).
  assert (Hxs : store w !! cur w = Some (n :: r)) by (rewrite <- Hq; by apply list_lookup_lookup_total_lt).
  assert (Htid : (tid < List.length (threads w))%nat) by eauto using lookup_lt_Some.
  unfold seq_apply, wait_msg, proj. rewrite add_msg_trap_trap_in. simpl.
  rewrite queue_get_ready, Hq by done. simpl. rewrite decide_True by apply trap_in_elem.
  eexists. split.
  { run_step (CallWait tid msg t) step_CallWait; [exact Hf|]. 
    run_step (GetStep tid) step_GetStep_block; [exact Ht'|].
    run_step (Dequeue tid) step_Dequeue; [exact Hxs|].
    run_step (RemoveStep tid) step_Remove_in;
      [apply trap_in_elem|apply rtc_refl]. }
  destruct w as [id st c a ths l]; simpl in *; subst l.
  split; [done|]. split; [unfold proj; simpl; by rewrite list_lookup_total_insert_eq|].
  split; [intros t0 Ht0; by rewrite !list_lookup_insert_ne by congruence|].
  cbn [reports threads]. last_thread.
Qed.

(** A negative timeout: [get] raises [ValueError] after the trap is set. *)
Lemma sim_wait_neg msg t :
  (t < 0)%Q → ∃ w', sim_by w tid (seq_apply (OpWait msg (Some t)) (proj w)) w'.
Proof.
  intros Hneg. unfold seq_apply, wait_msg, proj. rewrite add_msg_trap_trap_in. simpl.
  unfold queue_get. destruct (Qlt_le_dec t 0) as [_|Hle];
    [|exfalso; by apply (Qlt_not_le _ _ Hneg)].
  eexists. split.
  { run_step (CallWait tid msg (Some t)) step_CallWait; [exact Hf|].
    run_step (GetStep tid) step_GetStep_neg; [done|apply rtc_refl]. }
  destruct w as [id st c a ths l]; simpl in *; subst l.
  split; [done|]. split; [done|].
  split; [intros t0 Ht0; by rewrite !list_lookup_insert_ne by congruence|].
  cbn [reports threads]. last_thread.
Qed.

(** An empty current queue: [get] times out, or blocks for ever without
    a timeout. *)
Lemma sim_wait_empty msg t :
  (∀ t', t = Some t' → (0 <= t')%Q) → store w !!! cur w = [] →
  ∃ w', sim_by w tid (seq_apply (OpWait msg t) (proj w)) w'.
Proof.
  intros Ht' Hq. destruct Hwf as (Hc & _ & _).
  assert (Hxs : store w !! cur w = Some []) by (rewrite <- Hq; by apply list_lookup_lookup_total_lt).
  unfold seq_apply, wait_msg, proj. rewrite add_msg_trap_trap_in. simpl.
  rewrite queue_get_ready, Hq by done. destruct t as [t|]; simpl; eexists; split.
  { run_step (CallWait tid msg (Some t)) step_CallWait; [exact Hf|].
    run_step (GetStep tid) step_GetStep_block; [exact Ht'|].
    run_step (TimeoutStep tid) step_Timeout; [exact Hxs|apply rtc_refl]. }
  2: { run_step (CallWait tid msg None) step_CallWait; [exact Hf|].
       run_step (GetStep tid) step_GetStep_block; [exact Ht'|apply rtc_refl]. }
  all: destruct w as [id st c a ths l]; simpl in *; subst l.
  all: split; [done|]; split; [unfold proj; simpl; by rewrite Hq|].
  all: split; [intros t0 Ht0; by rewrite !list_lookup_insert_ne by congruence|].
  - cbn [reports threads]. last_thread.
  - cbn [reports threads]. exists msg, c. last_thread.
Qed.

Lemma sim_wait msg t : ∃ w', sim_by w tid (seq_apply (OpWait msg t) (proj w)) w'.
Proof.
  destruct t as [t|]; [destruct (Qlt_le_dec t 0) as [Hneg|Hnn]; [by apply sim_wait_neg|]|].
  all: destruct (store w !!! cur w) as [|n r] eqn:Hq;
    [apply sim_wait_empty|apply (sim_wait_got _ _ n r)]; try done; by intros ? [= <-].
Qed.
End simulation.

(** Refinement of the sequential model: from a well-formed state where
    the event loop is between handlers and thread [tid] is not inside a
    trap operation, each operation of [Proxy] (a notification handled,
    [wait_msg], [clear_msg_queue], [add_msg_trap]) is a run of the
    interleaved model, with no other thread scheduled, that ends in a
    well-formed state whose current queue and trap set are those the
    sequential operation computes, leaves the other threads as they were,
    and in which [tid] has returned or raised what [wait_msg] returns or
    raises (or is blocked without timeout when it hangs). *)
Theorem sequential_refinement w tid th op :
  wf w → loop w = LIdle → threads w !! tid = Some th → free th = true →
  ∃ w', wf w' ∧ sim_by w tid (seq_apply op (proj w)) w'.
Proof.
  intros Hwf Hl Ht Hf.
  assert (∃ w', sim_by w tid (seq_apply op (proj w)) w') as [w' Hs].
  { destruct op; [eapply sim_notify|eapply sim_wait|eapply sim_clear|eapply sim_add_trap]; eauto. }
  exists w'. split; [|done]. eapply rtc_wf; [apply Hs|done].
Qed.

(** ** Witnesses *)

(** Thread 0 waits for a heartbeat without timeout; thread 1 then clears
    the queue. *)
Definition world_cleared : World :=
  mkWorld "CP1" [[]; []] 1 {[Some "Heartbeat"]} [Blocked (Some "Heartbeat") 0 None; Idle] LIdle.

Definition world_cleared_hb : World :=
  mkWorld "CP1" [[]; [HeartbeatPayload]] 1 {[Some "Heartbeat"]}
          [Blocked (Some "Heartbeat") 0 None; Idle] LIdle.

(** One caller waits for a heartbeat the event loop delivers meanwhile. *)
Definition single_wait_run : list Action :=
  [CallWait 0 (Some "Heartbeat") (Some 1%Q); GetStep 0; Handle HeartbeatPayload; LoadQueue; PutQueue;
   Dequeue 0; RemoveStep 0].

Definition world_single : World := default (init "CP1" 1) (run_actions single_wait_run (init "CP1" 1)).

Lemma single_caller_no_key_error_witness :
  rtc cstep (init "CP1" 1) world_single ∧
  threads world_single !! 0%nat ≠ Some (Returned (Raise KeyError)).
Proof.
  assert (rtc cstep (init "CP1" 1) world_single) as Hr
    by (apply (run_actions_rtc single_wait_run); vm_compute; reflexivity).
  split; [exact Hr|]. apply (single_caller_no_key_error "CP1"). exact Hr.
Defined.

Lemma clear_msg_queue_starves_waiter_witness :
  run_actions [CallWait 0 (Some "Heartbeat") None; GetStep 0; ClearStep 1] (init "CP1" 2)
    = Some world_cleared ∧
  run_actions [Handle HeartbeatPayload; LoadQueue; PutQueue] world_cleared = Some world_cleared_hb ∧
  starved 0 (Some "Heartbeat") 0 world_cleared_hb.
Proof.
  split; [vm_compute; reflexivity|]. split; [vm_compute; reflexivity|].
  apply (clear_msg_queue_starves_waiter world_cleared).
  - split; [simpl; lia|]. split; [repeat constructor; simpl; lia|done].
  - split; [done|]. split; [done|]. split; [done|]. intros n; discriminate.
  - apply (run_actions_rtc [Handle HeartbeatPayload; LoadQueue; PutQueue]). vm_compute. reflexivity.
Defined.

Lemma sequential_refinement_witness :
  ∃ w', wf w' ∧
    sim_by (init "CP1" 1) 0 (seq_apply (OpWait (Some "Heartbeat") (Some 1%Q)) (proj (init "CP1" 1))) w'.
Proof. apply (sequential_refinement _ 0 Idle); [apply init_wf|reflexivity..]. Defined.
