(* ===== verification/Tests.v ===== *)
(** * The unit tests of [ChargePointProxy] on the model

    Each test of src/tests/test_chargepointproxy.py is a boolean check of
    its assertions against the model: the proxy of [Proxy], its outbound
    operations run by [Bridge.run] against [mock_comm], the [Mock] whose
    [blocking_call.return_value] is the state ([assert_called_with] looks
    at the last request sent, [assert_called] and [assert_not_called] at
    whether any was).  [assertRaises(E)] holds when the operation raises an
    exception of class [E], [isinstance] when the value has the payload's
    constructor.  Each check evaluates to [true]: the model passes the
    project's tests. *)

From S2P Require Import Prelude PyText Ocpp Bridge Proxy.
From Stdlib Require Import QArith.

#[local] Instance request_eq_dec : EqDecision Request.
Proof. solve_decision. Defined.

(** ** What the assertions look at *)

(** [range(0, 110, 10)] *)
Definition range_0_110_10 : list Z := (λ k : nat, (10 * Z.of_nat k)%Z) <$> seq 0 11.

Definition returned {A} (o : outcome exn A) : bool :=
  match o with Ret _ => true | _ => false end.

Definition raises_change_configuration {A} (o : outcome exn A) : bool :=
  match o with Raise (ChangeConfigurationException _) => true | _ => false end.

Definition raises_trigger_message {A} (o : outcome exn A) : bool :=
  match o with Raise (TriggerMessageException _) => true | _ => false end.

Definition raises_timeout {A} (o : outcome exn A) : bool :=
  match o with Raise (TimeoutException _) => true | _ => false end.

Definition is_heartbeat (o : outcome exn Notification) : bool :=
  match o with Ret HeartbeatPayload => true | _ => false end.

Definition called_with (log : list Request) (req : Request) : bool :=
  bool_decide (last log = Some req).

Definition mock (r : Response) : outcome exn Response := Ret r.

(** [datetime.utcnow()] when the handler runs. *)
Definition test_now : datetime :=
  {| dt_year := 2021; dt_month := 3; dt_day := 1; dt_hour := 12; dt_minute := 0;
     dt_second := 0; dt_microsecond := 0 |}.

Definition cpp : Proxy := new_proxy "CP1".

(** ** The tests *)

Definition test_set_light_intensity_with_accepted_answer : bool :=
  forallb (λ i,
    let '(log, _, r) := run (light_intensity_set i) (mock (ChangeConfigurationResult "Accepted")) in
    returned r && called_with log (ChangeConfigurationPayload "LightIntensity" (py_str i)))
    range_0_110_10.

Definition test_set_light_intensity_with_rejected_answer : bool :=
  raises_change_configuration (run (light_intensity_set 90) (mock (ChangeConfigurationResult "Rejected"))).2.

(** A [Mock()] with no return value set: the setter never calls it. *)
Definition test_set_light_intensity_with_value_out_of_range : bool :=
  raises_change_configuration (run (light_intensity_set 110) (Raise AttributeError)).2.

Definition config_answer (i : Z) : Response :=
  GetConfigurationResult
    (Some [{| ck_key := "LightIntensity"; ck_readonly := false; ck_value := Some (py_str i) |}]) None.

Definition test_get_light_intensity : bool :=
  forallb (λ i,
    let '(log, _, r) := run light_intensity_get (mock (config_answer i)) in
    match r with Ret v => bool_decide (v = i) | _ => false end && called_with log (GetConfigurationPayload ["LightIntensity"]))
    range_0_110_10.

Definition test_trigger_message : bool :=
  let '(log, _, r) := run (trigger_message "Heartbeat") (mock (TriggerMessageResult "Accepted")) in
  returned r && called_with log (TriggerMessagePayload "Heartbeat").

Definition test_trigger_message_with_rejected_response : bool :=
  let '(log, _, r) := run (trigger_message "Heartbeat") (mock (TriggerMessageResult "Rejected")) in
  raises_trigger_message r && negb (bool_decide (log = [])).

Definition test_trigger_message_that_is_not_allowed_to_trigger : bool :=
  let '(log, _, r) := run (trigger_message "StopTransaction") (Raise AttributeError) in
  raises_trigger_message r && bool_decide (log = []).

Definition test_heartbeat_handler : bool :=
  match (on_heartbeat test_now cpp).2 with HeartbeatAck _ => true | _ => false end.

Definition test_heartbeat_handler_with_msg_trap : bool :=
  let p := (on_heartbeat test_now (add_msg_trap (Some "Heartbeat") cpp)).1 in
  is_heartbeat (wait_msg (Some "Heartbeat") (Some 1%Q) p).2.

Definition test_wait_for_message_with_timeout : bool :=
  let p := (on_heartbeat test_now cpp).1 in
  raises_timeout (wait_msg (Some "Heartbeat") (Some (1 # 10)%Q) p).2.

Definition test_when_a_message_trigger_occurs_the_trigger_is_removed : bool :=
  let p := (on_heartbeat test_now (add_msg_trap (Some "Heartbeat") cpp)).1 in
  let '(p', msg) := wait_msg (Some "Heartbeat") (Some 1%Q) p in
  is_heartbeat msg && raises_timeout (wait_msg (Some "Heartbeat") (Some (1 # 10)%Q) p').2.

Definition test_wait_message_without_message_argument : bool :=
  let p := (on_heartbeat test_now (add_msg_trap (Some "Heartbeat") cpp)).1 in
  is_heartbeat (wait_msg_default p).2.

(** ** The model passes the tests *)

Lemma test_set_light_intensity_with_accepted_answer_passes :
  test_set_light_intensity_with_accepted_answer = true.
Proof. vm_compute. reflexivity. Qed.

Lemma test_set_light_intensity_with_rejected_answer_passes :
  test_set_light_intensity_with_rejected_answer = true.
Proof. vm_compute. reflexivity. Qed.

Lemma test_set_light_intensity_with_value_out_of_range_passes :
  test_set_light_intensity_with_value_out_of_range = true.
Proof. vm_compute. reflexivity. Qed.

Lemma test_get_light_intensity_passes : test_get_light_intensity = true.
Proof. vm_compute. reflexivity. Qed.

Lemma test_trigger_message_passes : test_trigger_message = true.
Proof. vm_compute. reflexivity. Qed.

Lemma test_trigger_message_with_rejected_response_passes :
  test_trigger_message_with_rejected_response = true.
Proof. vm_compute. reflexivity. Qed.

Lemma test_trigger_message_that_is_not_allowed_to_trigger_passes :
  test_trigger_message_that_is_not_allowed_to_trigger = true.
Proof. vm_compute. reflexivity. Qed.

Lemma test_heartbeat_handler_passes : test_heartbeat_handler = true.
Proof. vm_compute. reflexivity. Qed.

Lemma test_heartbeat_handler_with_msg_trap_passes : test_heartbeat_handler_with_msg_trap = true.
Proof. vm_compute. reflexivity. Qed.

Lemma test_wait_for_message_with_timeout_passes : test_wait_for_message_with_timeout = true.
Proof. vm_compute. reflexivity. Qed.

Lemma test_when_a_message_trigger_occurs_the_trigger_is_removed_passes :
  test_when_a_message_trigger_occurs_the_trigger_is_removed = true.
Proof. vm_compute. reflexivity. Qed.

Lemma test_wait_message_without_message_argument_passes :
  test_wait_message_without_message_argument = true.
Proof. vm_compute. reflexivity. Qed.
