(* ===== verification/Demo.v ===== *)
(** * The demo [main] of the keyword library, as an interaction tree

    [main] (libs/centralsystem.py lines 68-75) calls four keywords on a
    fresh library object and then spins in [while True: pass].  An
    exception raised by a keyword ends [main] with that exception.  It is
    an interaction tree over the keyword calls ([KwE]) whose leaves are
    the exception [main] raises: there is no other way for it to end.  A
    call that blocks for ever is a silent divergence ([ITree.spin]).

    A handler gives the calls their meaning as a state transformer; the
    handler [kw_step] runs the keyword models of [Keywords] on the library
    state, and the outbound call of [send_TriggerMessage] through a
    station communicator ([Bridge.run]).  The station's reaction to the
    trigger, the BootNotification it sends back, is delivered to the
    session by the environment handler [demo_step], either as soon as the
    trigger is accepted or while the caller waits.

    Theorems: when the four keywords return, [main] diverges (its
    interpretation is [ITree.spin], proved by coinduction with Paco); and
    because [wait_for_msg] arms the trap only after [send_TriggerMessage]
    returned, a station that answers the trigger at once makes [main]
    raise [TimeoutException], while one that answers during the wait makes
    it loop for ever. *)

From S2P Require Import Prelude Ocpp Bridge Proxy Registry Keywords.
From ITree Require Import ITree ITreeFacts Events.State Events.StateFacts.
From Paco Require Import paco.

(** ** The program *)

(** The keyword calls [main] makes, with what each returns or raises. *)
Variant KwE : Type → Type :=
  | StartCS (addr : string) (port : Z) : KwE (outcome exn unit)
  | WaitConnect : KwE (outcome exn string)
  | SendTrigger (charge_id msg : string) : KwE (outcome exn unit)
  | WaitForMsg (charge_id msg : string) : KwE (outcome exn Notification).

(** A statement calling a keyword: the rest of [main] runs on a return,
    an exception ends [main], a call that never returns never does. *)
Definition pycall {A} (e : KwE (outcome exn A)) (k : A → itree KwE exn) : itree KwE exn :=
  Vis e (λ r, match r with Prelude.Ret a => k a | Raise x => Ret x | Hang => ITree.spin end).

(** [while True: pass] *)
Definition busy_loop : itree KwE exn := ITree.iter (λ _ : unit, Ret (inl tt)) tt.

Definition main : itree KwE exn :=
  pycall (StartCS "0.0.0.0" 9000) (λ _,
  pycall WaitConnect (λ charge,
  pycall (SendTrigger charge "BootNotification") (λ _,
  pycall (WaitForMsg charge "BootNotification") (λ _,
  busy_loop)))).

(** ** Handlers *)

(** A handler that answers each call by a step on a state [S]. *)
Definition pure_handler {S} (hs : ∀ A, KwE A → S → S * A) : KwE ~> Monads.stateT S (itree void1) :=
  λ A e s, Ret (hs A e s).

(** The keywords run on the library object, and the outbound call of
    [send_TriggerMessage] on the station's communicator [St].  The
    environment is the station at [path]: it connects while the caller
    waits for a connection, and once it has accepted a trigger it sends
    its BootNotification, which the event loop hands to its session,
    either at once ([AtOnce]) or while the caller waits in [wait_msg]
    ([DuringWait]). *)
Inductive Reaction := AtOnce | DuringWait.

Record DemoState (St : Type) := mkDemo {
  d_lib : Library;
  d_station : St;
  d_pending : bool   (** a triggered BootNotification not yet sent *)
}.
Arguments mkDemo {St}.
Arguments d_lib {St}.
Arguments d_station {St}.
Arguments d_pending {St}.

Definition boot_time : datetime :=
  {| dt_year := 2020; dt_month := 5; dt_day := 17; dt_hour := 9; dt_minute := 3;
     dt_second := 8; dt_microsecond := 0 |}.

Definition boot_fields : Fields := [("charge_point_vendor", "ChargeAmps")].

(** The event loop runs the BootNotification handler of the session of
    [charge_id]. *)
Definition station_sends (charge_id : string) (lib : Library) : Library :=
  match lib with
  | Some cs =>
      match find_chargepoint charge_id cs with
      | Prelude.Ret (i, _) => Some (deliver boot_time i "BootNotification" boot_fields cs).1
      | _ => lib
      end
  | None => lib
  end.

(** The station connects on [path] if no session exists yet. *)
Definition station_connects (path : string) (lib : Library) : Library :=
  match lib with
  | Some cs => if has_connections cs then lib else Some (on_connect path cs)
  | None => lib
  end.

Section demo_step.
Context `{Comm St} (path : string) (react : Reaction).

Definition demo_step {A} (e : KwE A) (s : DemoState St) : DemoState St * A :=
  match e in KwE A return DemoState St * A with
  | StartCS addr port =>
      let '(lib, r) := start_CentralSystem addr port (d_lib s) in
      (mkDemo lib (d_station s) (d_pending s), r)
  | WaitConnect =>
      let '(lib, r) := wait_for_ChargePoint_to_connect (station_connects path (d_lib s)) in
      (mkDemo lib (d_station s) (d_pending s), r)
  | SendTrigger c m =>
      match send_TriggerMessage c m (d_lib s) with
      | Prelude.Ret (_, p) =>
          let '(_, st', r) := run p (d_station s) in
          match r, react with
          | Prelude.Ret _, AtOnce => (mkDemo (station_sends c (d_lib s)) st' false, r)
          | Prelude.Ret _, DuringWait => (mkDemo (d_lib s) st' true, r)
          | _, _ => (mkDemo (d_lib s) st' (d_pending s), r)
          end
      | Raise x => (s, Raise x)
      | Hang => (s, Hang)
      end
  | WaitForMsg c m =>
      (** [wait_msg] arms its trap, the notification arrives while it waits
          in [get], then [get] returns. *)
      let lib :=
        if d_pending s then
          station_sends c (fst (kw_add_msg_trap c m (d_lib s)))
        else d_lib s in
      let '(lib', r) := kw_wait_for_msg c m lib in
      (mkDemo lib' (d_station s) false, r)
  end.
End demo_step.

(** ** The busy loop diverges *)

Lemma busy_loop_spin : eutt eq busy_loop ITree.spin.
Proof.
  pcofix CIH. pstep. red. cbn. constructor. right. apply CIH.
Qed.

Section interpretation.
Context {S : Type} (h : KwE ~> Monads.stateT S (itree void1)).

(** A call that never returns never returns under any handler. *)
Lemma interp_state_spin (s : S) :
  eutt eq (interp_state h (ITree.spin : itree KwE exn) s) (ITree.spin : itree void1 (S * exn)).
Proof.
  revert s. ginit. gcofix CIH. intros s.
  rewrite unfold_interp_state. cbn.
  rewrite (itree_eta (ITree.spin : itree void1 (S * exn))). cbn.
  gstep. constructor. gbase. apply CIH.
Qed.

Lemma interp_state_busy_loop (s : S) :
  eutt eq (interp_state h busy_loop s) (ITree.spin : itree void1 (S * exn)).
Proof. rewrite busy_loop_spin. apply interp_state_spin. Qed.
End interpretation.

Section pure.
Context {S : Type} (hs : ∀ A, KwE A → S → S * A).

Lemma interp_pycall_ret {A} (e : KwE (outcome exn A)) k s s' a :
  hs _ e s = (s', Prelude.Ret a) →
  eutt eq (interp_state (pure_handler hs) (pycall e k) s) (interp_state (pure_handler hs) (k a) s').
Proof.
  intros He. unfold pycall. rewrite interp_state_vis. unfold pure_handler. rewrite He.
  rewrite bind_ret_l. cbn. rewrite tau_eutt. reflexivity.
Qed.

Lemma interp_pycall_raise {A} (e : KwE (outcome exn A)) k s s' x :
  hs _ e s = (s', Raise x) →
  eutt eq (interp_state (pure_handler hs) (pycall e k) s) (Ret (s', x)).
Proof.
  intros He. unfold pycall. rewrite interp_state_vis. unfold pure_handler. rewrite He.
  rewrite bind_ret_l. cbn. rewrite tau_eutt, interp_state_ret. reflexivity.
Qed.

Lemma interp_pycall_hang {A} (e : KwE (outcome exn A)) k s s' :
  hs _ e s = (s', Hang) →
  eutt eq (interp_state (pure_handler hs) (pycall e k) s) ITree.spin.
Proof.
  intros He. unfold pycall. rewrite interp_state_vis. unfold pure_handler. rewrite He.
  rewrite bind_ret_l. cbn. rewrite tau_eutt. apply interp_state_spin.
Qed.
(** [main] never returns: when the four keywords it calls return (in
    whatever state and with whatever values the handler gives), the rest
    of [main] is [while True: pass], and the interpreted program diverges
    silently, equivalent to [ITree.spin]. *)
Theorem main_diverges s0 s1 s2 s3 s4 (u u' : unit) (charge : string) (n : Notification) :
  hs _ (StartCS "0.0.0.0" 9000) s0 = (s1, Prelude.Ret u) →
  hs _ WaitConnect s1 = (s2, Prelude.Ret charge) →
  hs _ (SendTrigger charge "BootNotification") s2 = (s3, Prelude.Ret u') →
  hs _ (WaitForMsg charge "BootNotification") s3 = (s4, Prelude.Ret n) →
  eutt eq (interp_state (pure_handler hs) main s0) ITree.spin.
Proof.
  intros H1 H2 H3 H4. unfold main.
  rewrite (interp_pycall_ret _ _ _ _ _ H1). cbv beta.
  rewrite (interp_pycall_ret _ _ _ _ _ H2). cbv beta.
  rewrite (interp_pycall_ret _ _ _ _ _ H3). cbv beta.
  rewrite (interp_pycall_ret _ _ _ _ _ H4). apply interp_state_busy_loop.
Qed.
End pure.

(** ** The demo against the harness *)

(** A station whose communicator accepts every trigger. *)
Definition demo_handler (react : Reaction) : ∀ A, KwE A → DemoState (outcome exn Response) →
    DemoState (outcome exn Response) * A :=
  λ A e s, @demo_step _ mock_comm "/CP1" react A e s.

Definition demo_init : DemoState (outcome exn Response) :=
  mkDemo None (Prelude.Ret (TriggerMessageResult "Accepted")) false.

Ltac call_returns := erewrite interp_pycall_ret; [cbv beta|reflexivity].

(** [main] arms the BootNotification trap only when [wait_for_msg]
    starts, after [send_TriggerMessage] has returned.  Against a station
    that connects and accepts the trigger: if its BootNotification reaches
    the session as soon as the trigger is accepted, the handler finds no
    trap and drops it, and [main] raises [TimeoutException] one second
    later; if it arrives while [wait_msg] waits, [main] goes on to loop for
    ever. *)
Theorem main_trigger_race :
  (∃ s', eutt eq (interp_state (pure_handler (demo_handler AtOnce)) main demo_init)
                 (Ret (s', TimeoutException wait_timeout_msg))) ∧
  eutt eq (interp_state (pure_handler (demo_handler DuringWait)) main demo_init) ITree.spin.
Proof.
  split.
  - eexists. unfold main. do 3 call_returns.
    erewrite interp_pycall_raise; [reflexivity|reflexivity].
  - unfold main. do 3 call_returns. erewrite interp_pycall_ret; [|reflexivity].
    apply interp_state_busy_loop.
Qed.

(** ** Witnesses *)

Lemma main_diverges_witness :
  eutt eq (interp_state (pure_handler (demo_handler DuringWait)) main demo_init) ITree.spin.
Proof. eapply main_diverges; reflexivity. Defined.
