(* ===== verification/Dispatch.v ===== *)
(** * The dispatch loop of a connection, as an interaction tree

    [__on_connect] (CentralSystem.py lines 26-29) ends with
    [try: await cp.start()] [except websockets.exceptions.ConnectionClosedOK:]
    [logger.console(...)].  [cp.start()] is the [ocpp] library's loop: it
    awaits the next frame of the websocket, routes the call to the
    handler the [@on] decorators registered, and sends the reply; it ends
    only when [recv] raises because the connection closed.  A close
    without error is caught and [__on_connect] returns; any other
    exception propagates out of [__on_connect].

    The loop is an interaction tree over two network events, [Recv] and
    [Send], iterating ([ITree.iter]) on the registry: each frame is
    handled by [Registry.deliver] on the session of the connection.  A
    network handler reads the frames from a script and records the
    replies sent.

    [on_connect_handler] is the whole of [__on_connect]: register the
    session, then run the loop on it.

    Theorems: the loop hands every call, in arrival order, to the handlers
    ([Proxy.route]) of its own session and to no other, sends their
    acknowledgements in that order, and on the closing frame returns
    normally (a clean close) or with the error that ends [__on_connect]
    ([dispatch_routes], through the in-order fold [deliver_all]); and the
    session [__on_connect] registers stays in the registry after its
    connection has closed ([session_outlives_connection]). *)

From S2P Require Import Prelude Ocpp Proxy Registry.
From ITree Require Import ITree ITreeFacts Events.State Events.StateFacts.

(** ** The network *)

(** What [await ws.recv()] gives: a call frame (with the time its handler
    reads from [datetime.utcnow()]), or the exception that closes the
    connection. *)
Inductive Frame :=
  | FrameCall (now : datetime) (action : string) (fields : Fields)
  | ClosedOK
  | ClosedError (reason : string).

Variant NetE : Type → Type :=
  | Recv : NetE Frame
  | Send (reply : option Reply) : NetE unit.

(** ** The loop *)

(** One iteration of [cp.start()] on the session at index [j]: receive,
    route, reply; a close ends the loop with [None] (caught by the
    [except ConnectionClosedOK]) or [Some reason] (propagated). *)
Definition dispatch_body (j : nat) (cs : CentralSystem)
    : itree NetE (CentralSystem + CentralSystem * option string) :=
  ITree.bind (ITree.trigger Recv) (λ f,
    match f with
    | FrameCall now action fields =>
        let '(cs', r) := deliver now j action fields cs in
        ITree.bind (ITree.trigger (Send r)) (λ _, Ret (inl cs'))
    | ClosedOK => Ret (inr (cs, None))
    | ClosedError why => Ret (inr (cs, Some why))
    end).

Definition dispatch_loop (j : nat) (cs : CentralSystem) : itree NetE (CentralSystem * option string) :=
  ITree.iter (dispatch_body j) cs.

(** The network as a script: the frames still to arrive and the replies
    sent so far.  A [recv] with nothing left to arrive waits for ever. *)
Definition NetState : Type := list Frame * list (option Reply).

Definition net_handler : NetE ~> Monads.stateT NetState (itree void1) :=
  λ _ e s,
    match e in NetE T return itree void1 (NetState * T) with
    | Recv => match s.1 with f :: r => Ret ((r, s.2), f) | [] => ITree.spin end
    | Send rep => Ret ((s.1, s.2 ++ [rep]), tt)
    end.

(** ** The reference: handling the frames in order *)

Fixpoint deliver_all (j : nat) (calls : list (datetime * string * Fields)) (cs : CentralSystem)
    : CentralSystem * list (option Reply) :=
  match calls with
  | [] => (cs, [])
  | (now, action, fields) :: r =>
      let '(cs1, rep) := deliver now j action fields cs in
      let '(cs2, reps) := deliver_all j r cs1 in
      (cs2, rep :: reps)
  end.

Definition call_frame (c : datetime * string * Fields) : Frame :=
  let '(now, action, fields) := c in FrameCall now action fields.

(** What a closing frame makes [__on_connect] do. *)
Definition closing (f : Frame) : option (option string) :=
  match f with
  | ClosedOK => Some None
  | ClosedError why => Some (Some why)
  | FrameCall _ _ _ => None
  end.

(** [__on_connect] (CentralSystem.py 15-29) as a whole: register the
    session of the new connection (lines 16-24), then run its dispatch
    loop on that session, the last of the list (lines 26-29). *)
Definition on_connect_handler (path : string) (cs : CentralSystem)
    : itree NetE (CentralSystem * option string) :=
  dispatch_loop (List.length (connected_chargepoints cs)) (on_connect path cs).

(** What the handlers of one session do with a sequence of calls: the
    session after them and the acknowledgements, in order. *)
Fixpoint route_all (calls : list (datetime * string * Fields)) (p : Proxy) : Proxy * list Reply :=
  match calls with
  | [] => (p, [])
  | (now, action, fields) :: r =>
      let '(p1, rep) := route now action fields p in
      let '(p2, reps) := route_all r p1 in
      (p2, rep :: reps)
  end.

(** ** Theorems *)

Lemma interp_recv (fr : Frame) (rest : list Frame) sent {R} (k : Frame → itree NetE R) :
  eutt eq (interp_state net_handler (ITree.bind (ITree.trigger Recv) k) (fr :: rest, sent))
          (interp_state net_handler (k fr) (rest, sent)).
Proof.
  rewrite interp_state_bind, interp_state_trigger. cbn. rewrite bind_ret_l. reflexivity.
Qed.

Lemma interp_send rep s {R} (k : unit → itree NetE R) :
  eutt eq (interp_state net_handler (ITree.bind (ITree.trigger (Send rep)) k) s)
          (interp_state net_handler (k tt) (s.1, s.2 ++ [rep])).
Proof.
  rewrite interp_state_bind, interp_state_trigger. cbn. rewrite bind_ret_l. reflexivity.
Qed.

Lemma interp_dispatch_step j cs s :
  eutt eq (interp_state net_handler (dispatch_loop j cs) s)
          (interp_state net_handler
             (ITree.bind (dispatch_body j cs)
                (λ lr, match lr with inl cs' => Tau (dispatch_loop j cs') | inr r => Ret r end)) s).
Proof. unfold dispatch_loop. rewrite unfold_iter. reflexivity. Qed.

(** The loop handles the frames in arrival order: it ends like the fold
    [deliver_all] of the calls, sending one reply per call. *)
Lemma dispatch_in_order j calls c rest sent cs r :
  closing c = Some r →
  eutt eq (interp_state net_handler (dispatch_loop j cs) (List.map call_frame calls ++ c :: rest, sent))
          (Ret ((rest, sent ++ (deliver_all j calls cs).2), ((deliver_all j calls cs).1, r))).
Proof.
  intros Hc. revert cs sent. induction calls as [|[[now action] fields] calls IH]; intros cs sent.
  - rewrite interp_dispatch_step. unfold dispatch_body. rewrite bind_bind. simpl.
    rewrite interp_recv. destruct c; simplify_eq/=; rewrite bind_ret_l, interp_state_ret, app_nil_r;
      reflexivity.
  - rewrite interp_dispatch_step. unfold dispatch_body. rewrite bind_bind. simpl.
    rewrite interp_recv. simpl. destruct (deliver now j action fields cs) as [cs1 rep] eqn:Hd.
    rewrite bind_bind, interp_send. simpl. rewrite bind_ret_l, interp_state_tau, tau_eutt, IH.
    destruct (deliver_all j calls cs1) as [cs2 reps]. simpl.
    by rewrite <- app_assoc.
Qed.

Lemma set_chargepoints_id cs : set_chargepoints cs (connected_chargepoints cs) (conn_event cs) = cs.
Proof. by destruct cs. Qed.

Lemma deliver_all_route j calls cs p :
  connected_chargepoints cs !! j = Some p →
  deliver_all j calls cs =
    (set_chargepoints cs (<[j := (route_all calls p).1]> (connected_chargepoints cs)) (conn_event cs),
     Some <$> (route_all calls p).2).
Proof.
  revert cs p. induction calls as [|[[now action] fields] calls IH]; intros cs p Hj; simpl.
  - by rewrite list_insert_id, set_chargepoints_id.
  - unfold deliver. rewrite Hj. destruct (route now action fields p) as [p1 rep].
    rewrite (IH _ p1); [|simpl; apply list_lookup_insert_eq; eapply lookup_lt_Some, Hj].
    simpl. destruct (route_all calls p1) as [p2 reps]. simpl.
    by rewrite list_insert_insert_eq.
Qed.

Lemma dispatch_loop_route j calls c rest sent cs p r :
  connected_chargepoints cs !! j = Some p → closing c = Some r →
  eutt eq (interp_state net_handler (dispatch_loop j cs) (List.map call_frame calls ++ c :: rest, sent))
          (Ret ((rest, sent ++ (Some <$> (route_all calls p).2)),
                (set_chargepoints cs (<[j := (route_all calls p).1]> (connected_chargepoints cs))
                   (conn_event cs), r))).
Proof. intros Hj Hc. rewrite (dispatch_in_order _ _ _ _ _ _ _ Hc), (deliver_all_route _ _ _ _ Hj). done. Qed.

(** C25: The dispatch loop of the connection whose session is at [j]
    hands every call frame, in arrival order, to that session's handlers
    ([Proxy.route]) and to no other session: run on calls followed by a
    closing frame, it leaves the registry with that one session replaced
    by the session the handlers produce, the other sessions and the
    connection event untouched, sends the handlers' acknowledgements in
    order, and returns normally on a clean close ([except
    ConnectionClosedOK]) and with the reason of any other close. *)
Theorem dispatch_routes j calls c rest sent cs p r :
  connected_chargepoints cs !! j = Some p → closing c = Some r →
  eutt eq (interp_state net_handler (dispatch_loop j cs) (List.map call_frame calls ++ c :: rest, sent))
          (Ret ((rest, sent ++ (Some <$> (route_all calls p).2)),
                (set_chargepoints cs (<[j := (route_all calls p).1]> (connected_chargepoints cs))
                   (conn_event cs), r))).
Proof. apply dispatch_loop_route. Qed.

(** C18: A session outlives its connection.  [__on_connect] registers a
    fresh session for [path.strip('/')] after the sessions already there,
    routes every call of the connection to it, and when the connection
    closes (cleanly or not) returns with the session still registered:
    the registry ends as the old sessions followed by the closed
    connection's session, in the state its handlers left it, with the
    connection event set.  The spec says a session exists only while its
    transport is open. *)
Theorem session_outlives_connection path calls c rest sent cs r :
  closing c = Some r →
  let p := route_all calls (new_proxy (station_id_of_path path)) in
  eutt eq (interp_state net_handler (on_connect_handler path cs) (List.map call_frame calls ++ c :: rest, sent))
          (Ret ((rest, sent ++ (Some <$> p.2)),
                (set_chargepoints cs (connected_chargepoints cs ++ [p.1]) true, r))).
Proof.
  intros Hc p. unfold on_connect_handler.
  assert (connected_chargepoints (on_connect path cs) !! List.length (connected_chargepoints cs)
          = Some (new_proxy (station_id_of_path path))) as Hj by (simpl; by rewrite lookup_app_r, Nat.sub_diag).
  rewrite (dispatch_loop_route _ _ _ _ _ _ _ _ Hj Hc).
  simpl. rewrite <- (Nat.add_0_r (List.length (connected_chargepoints cs))), insert_app_r. done.
Qed.

(** ** Witnesses *)

Definition frame_time : datetime :=
  {| dt_year := 2020; dt_month := 5; dt_day := 17; dt_hour := 9; dt_minute := 4;
     dt_second := 0; dt_microsecond := 0 |}.

(** A heartbeat, then a status notification, then a clean close, on the
    session of the first connection. *)
Definition two_calls : list (datetime * string * Fields) :=
  [(frame_time, "Heartbeat", []); (frame_time, "StatusNotification", [("status", "Available")])].

Lemma dispatch_routes_witness :
  connected_chargepoints cs_one !! 0%nat = Some (new_proxy "CP1") ∧ closing ClosedOK = Some None ∧
  eutt eq (interp_state net_handler (dispatch_loop 0 cs_one) (List.map call_frame two_calls ++ [ClosedOK], []))
          (Ret (([], [] ++ (Some <$> (route_all two_calls (new_proxy "CP1")).2)),
                (set_chargepoints cs_one (<[0%nat := (route_all two_calls (new_proxy "CP1")).1]>
                   (connected_chargepoints cs_one)) (conn_event cs_one), None))).
Proof. split_and!; [reflexivity..|]. apply dispatch_routes; reflexivity. Defined.

Lemma session_outlives_connection_witness :
  closing (ClosedError "1006") = Some (Some "1006") ∧
  eutt eq (interp_state net_handler (on_connect_handler "/CP1" cs_served)
             (List.map call_frame two_calls ++ [ClosedError "1006"], []))
          (Ret (([], [] ++ (Some <$> (route_all two_calls (new_proxy (station_id_of_path "/CP1"))).2)),
                (set_chargepoints cs_served
                   ([] ++ [(route_all two_calls (new_proxy (station_id_of_path "/CP1"))).1]) true,
                 Some "1006"))).
Proof. split; [reflexivity|]. apply (session_outlives_connection "/CP1" two_calls _ [] [] cs_served). reflexivity. Defined.
